(** * Habit tracker (app.py): a shallow embedding and its verified properties

    The program is a Flask application over two SQLite tables, [habit] and
    [checking].  The embedding below follows app.py function by function:

    - a [date] is its proleptic Gregorian ordinal ([date.toordinal()]), a
      positive number: [date.min], 0001-01-01, has ordinal 1, and subtracting
      a [timedelta] that would go below it raises [OverflowError]; the program
      never moves a date forward, so [date.max] plays no part;
    - exceptions are the constructors of [exn], fallible code lives in the
      [result] monad;
    - a table is the list of its rows in rowid order; the constraints the
      models declare (primary keys, the unique habit name, the unique
      (habit_id, date) pair) are checked where the engine checks them, at
      commit, and raise [IntegrityError].  SQLite does not enforce foreign
      keys unless asked to, and app.py never asks;
    - a handler is a function from the request, the clock and the database to
      the database after the request, the flashed messages and the response.

    An integer reaches SQLite as a signed 64-bit number: sqlite3 raises
    [OverflowError] when it has to bind a Python [int] that does not fit, and
    no handler catches it.  The ids a table holds fit, and so does every id
    that [get_weekly_data_for_habit] is called with (line 222, after the habit
    was found).  Other failures of the engine (I/O errors) are outside the
    model. *)

From Equations Require Import Equations.
From stdpp Require Import base option list gmap sets strings.

(** ** Exceptions and the result monad *)

Inductive exn := OverflowError | IndexError | IntegrityError.

Inductive result (A : Type) : Type :=
  | Ok (a : A)
  | Raise (e : exn).
Arguments Ok {A} a.
Arguments Raise {A} e.

#[global] Instance result_ret : MRet result := λ A, Ok.
#[global] Instance result_bind : MBind result := λ A B f m,
  match m with Ok a => f a | Raise e => Raise e end.
#[global] Instance result_fmap : FMap result := λ A B f m,
  match m with Ok a => Ok (f a) | Raise e => Raise e end.

(** [[f(x) for x in xs]] where [f] may raise: the first exception wins. *)
Fixpoint comprehension {A B} (f : A → result B) (xs : list A) : result (list B) :=
  match xs with
  | [] => Ok []
  | x :: xs' => y ← f x; ys ← comprehension f xs'; Ok (y :: ys)
  end.

(** [xs[i]]: [IndexError] out of range. *)
Definition index {A} (xs : list A) (i : nat) : result A :=
  match xs !! i with Some x => Ok x | None => Raise IndexError end.

Definition inspect {A} (a : A) : {b | a = b} := exist _ a eq_refl.

(** ** Dates *)

Abbreviation date := positive.

Definition date_min : date := 1%positive.

(** [d - timedelta(days=days)] for a day count that is not negative (the
    program subtracts only [1] and the indices of a [range]). *)
Definition date_sub (d : date) (days : nat) : result date :=
  match (Z.pos d - Z.of_nat days)%Z with
  | Z.pos o => Ok o
  | _ => Raise OverflowError
  end.

(** [d.weekday()]: Monday is 0. *)
Definition weekday (d : date) : Z := ((Z.pos d + 6) mod 7)%Z.

(** [d.strftime('%a')] in the C locale. *)
Definition strftime_a (d : date) : string :=
  match weekday d with
  | 0 => "Mon" | 1 => "Tue" | 2 => "Wed" | 3 => "Thu"
  | 4 => "Fri" | 5 => "Sat" | _ => "Sun"
  end%Z.


(** ** Strings *)

(** [str.isspace] on the code points below 256. *)
Definition is_space (c : Ascii.ascii) : bool :=
  let n := Ascii.nat_of_ascii c in
  ((9 <=? n) && (n <=? 13)) || ((28 <=? n) && (n <=? 32))
  || (n =? 133) || (n =? 160).

Fixpoint lstrip (s : string) : string :=
  match s with
  | EmptyString => EmptyString
  | String c s' => if is_space c then lstrip s' else s
  end.

Fixpoint rstrip (s : string) : string :=
  match s with
  | EmptyString => EmptyString
  | String c s' =>
      match rstrip s' with
      | EmptyString => if is_space c then EmptyString else String c EmptyString
      | r => String c r
      end
  end.

(** [s.strip()] *)
Definition strip (s : string) : string := rstrip (lstrip s).

(** ** The tables *)

Module Habit.
Record t := mk {
  id : Z;
  name : string;
  color : string;
  goal_type : string;
  target_per_day : Z;
  created_at : Z
}.
End Habit.

Module Checking.
Record t := mk {
  id : Z;
  habit_id : Z;
  date : date
}.
End Checking.

Record DB := mkDB {
  habit : list Habit.t;
  checking : list Checking.t
}.

(** The rowid SQLite gives an INTEGER PRIMARY KEY left unset: one more than
    the largest in the table. *)
Definition next_id (ids : list Z) : Z := (1 + foldr Z.max 0 ids)%Z.

(** ** Domain queries *)

(** [get_streak_from_dates], lines 39-46: the [while] loop with its two
    variables [s] and [d]; the date gets smaller at every turn. *)
Equations? streak_loop (dates_set : gset date) (s : nat) (d : date) : result nat
  by wf (Pos.to_nat d) lt :=
  streak_loop dates_set s d with decide (d ∈ dates_set) := {
    | right _ => Ok s
    | left _ with inspect (date_sub d 1) := {
        | exist _ (Ok d') E => streak_loop dates_set (S s) d'
        | exist _ (Raise e) _ => Raise e } }.
Proof.
  unfold date_sub in E.
  destruct (Z.pos d - Z.of_nat 1)%Z eqn:Hz; inversion E; subst. lia.
Qed.

Definition get_streak_from_dates (dates_set : gset date) (today : date) : result nat :=
  streak_loop dates_set 0 today.

(** The same loop cut off after [turns] tests of its condition: [None] when
    it is still running then. *)
Fixpoint streak_loop_turns (turns : nat) (dates_set : gset date) (s : nat) (d : date)
    : option (result nat) :=
  match turns with
  | 0 => None
  | S turns' =>
      if decide (d ∈ dates_set) then
        match date_sub d 1 with
        | Ok d' => streak_loop_turns turns' dates_set (S s) d'
        | Raise e => Some (Raise e)
        end
      else Some (Ok s)
  end.

(** [[today - timedelta(days=i) for i in reversed(range(days_window))]] *)
Definition window (today : date) (days_window : Z) : result (list date) :=
  comprehension (date_sub today) (reverse (seq 0 (Z.to_nat days_window))).

(** [get_weekly_data_for_habit], lines 48-65. *)
Definition get_weekly_data_for_habit (db : DB) (today : date)
    (habit_id : Z) (days_window : Z) : result (list string * list Z) :=
  days ← window today days_window;
  first ← index days 0;
  let checkings :=
    filter (λ c, Checking.habit_id c = habit_id ∧ (first ≤ Checking.date c)%positive)
           (checking db) in
  let checking_dates : gset date := list_to_set (Checking.date <$> checkings) in
  let data := (λ day, if decide (day ∈ checking_dates) then 1 else 0)%Z <$> days in
  let labels := strftime_a <$> days in
  Ok (labels, data).

(** [get_weekly_data_all_habits], lines 67-83; [daily_counts] is the dict. *)
Definition count_checking (daily_counts : gmap date Z) (c : Checking.t) : gmap date Z :=
  <[Checking.date c := (default 0 (daily_counts !! Checking.date c) + 1)%Z]> daily_counts.

Definition get_weekly_data_all_habits (db : DB) (today : date)
    (days_window : Z) : result (list string * list Z) :=
  days ← window today days_window;
  first ← index days 0;
  let checkings := filter (λ c, (first ≤ Checking.date c)%positive) (checking db) in
  let daily_counts := foldl count_checking ∅ checkings in
  let data := (λ day, default 0%Z (daily_counts !! day)) <$> days in
  let labels := strftime_a <$> days in
  Ok (labels, data).

(** ** Requests and responses *)

Set Warnings "-register-all".

(** A decoded JSON value; the numbers are the integers. *)
Inductive json :=
  | JNull
  | JBool (b : bool)
  | JInt (n : Z)
  | JStr (s : string)
  | JList (l : list json)
  | JDict (kv : list (string * json)).

(** The body of a request as Flask reads it: [request.form] holds the fields
    of a form-encoded body only, [request.get_json(silent=True)] the value of
    a JSON body only ([None] when it does not parse). *)
Inductive body :=
  | FormBody (fields : list (string * string))
  | JsonBody (j : option json)
  | OtherBody.

Record request := mkRequest {
  req_body : body;
  x_requested_with : option string
}.

Definition form (r : request) : list (string * string) :=
  match req_body r with FormBody fields => fields | _ => [] end.

Definition get_json (r : request) : option json :=
  match req_body r with JsonBody j => j | _ => None end.

Definition is_json (r : request) : bool :=
  match req_body r with JsonBody _ => true | _ => false end.

(** [d.get(key)] on a dict or a MultiDict: the value of the first entry. *)
Fixpoint dict_get {V} (kv : list (string * V)) (key : string) : option V :=
  match kv with
  | [] => None
  | (k, v) :: kv' => if decide (k = key) then Some v else dict_get kv' key
  end.

(** [request.is_json or request.headers.get('X-Requested-With') == 'XMLHttpRequest'] *)
Definition wants_json (r : request) : bool :=
  is_json r || bool_decide (x_requested_with r = Some "XMLHttpRequest").

Inductive response :=
  | Redirect (endpoint : string)
  | Jsonify (status : Z) (payload : json)
  | NotFound
  | InternalServerError (e : exn).

(** What a request leaves behind. *)
Record outcome := mkOutcome {
  db_after : DB;
  flashed : list (string * string);
  reply : response
}.

(** An exception no handler catches becomes a 500. *)
Definition respond (r : result response) : response :=
  match r with Ok resp => resp | Raise e => InternalServerError e end.

(** Python's [int] and [date.fromisoformat] on strings: their grammar depends
    on the interpreter's version, so the handlers take them as given. *)
Class Builtins := {
  int_of_str : string → option Z;
  fromisoformat : string → option date
}.

(** ** The persistence layer *)

(** The schema's constraints: primary keys, [unique=True] on the habit name
    (line 19) and [uix_habit_date] (line 30). *)
Definition checking_key (c : Checking.t) : Z * date :=
  (Checking.habit_id c, Checking.date c).

Definition constraints (db : DB) : Prop :=
  NoDup (Habit.id <$> habit db) ∧ NoDup (Habit.name <$> habit db) ∧
  NoDup (Checking.id <$> checking db) ∧ NoDup (checking_key <$> checking db).

(** The range of an SQLite INTEGER, from -2^63 to 2^63 - 1. *)
Definition int64_min : Z := (-9223372036854775808)%Z.
Definition int64_max : Z := 9223372036854775807%Z.

Definition int64 (n : Z) : Prop := (int64_min ≤ n ≤ int64_max)%Z.

#[global] Instance int64_dec (n : Z) : Decision (int64 n).
Proof. unfold int64. apply _. Defined.

(** The habit of primary key [habit_id], if the table has one. *)
Definition get_habit (db : DB) (habit_id : Z) : option Habit.t :=
  snd <$> list_find (λ h, Habit.id h = habit_id) (habit db).

(** [Habit.query.get_or_404(habit_id)] for the [habit_id] of a route;
    [Ok None] is the [abort(404)].  The query binds [habit_id], which raises
    [OverflowError] above [int64_max]; the [int] converter of the routes
    matches digits only, so no negative id reaches a handler (the router
    answers 404 itself).  A row of the table has an id that SQLite stored,
    within the range, so the binding fails only for an id that no row has. *)
Definition get_or_404 (db : DB) (habit_id : Z) : result (option Habit.t) :=
  match get_habit db habit_id with
  | Some habit => Ok (Some habit)
  | None =>
      if decide (habit_id ≤ int64_max)%Z then Ok None else Raise OverflowError
  end.

(** [Checking.query.filter_by(habit_id=hid, date=d).first()] *)
Definition first_checking (db : DB) (hid : Z) (d : date) : option Checking.t :=
  snd <$> list_find (λ c, Checking.habit_id c = hid ∧ Checking.date c = d) (checking db).

(** [db.session.add(Habit(name=name, color=color)); db.session.commit()]:
    the column defaults fill the other fields. *)
Definition insert_habit (name color : string) (now : Z) (db : DB)
    : result (Habit.t * DB) :=
  if decide (name ∈ Habit.name <$> habit db) then Raise IntegrityError
  else
    let h := Habit.mk (next_id (Habit.id <$> habit db)) name color "daily" 1 now in
    Ok (h, mkDB (habit db ++ [h]) (checking db)).

Definition set_name_color (name color : string) (h : Habit.t) : Habit.t :=
  Habit.mk (Habit.id h) name color (Habit.goal_type h) (Habit.target_per_day h)
           (Habit.created_at h).

(** [habit.name = name; habit.color = color; db.session.commit()] for the
    habit of primary key [habit_id]. *)
Definition update_habit (habit_id : Z) (name color : string) (db : DB) : result DB :=
  if decide (Exists (λ h, Habit.id h ≠ habit_id ∧ Habit.name h = name) (habit db))
  then Raise IntegrityError
  else
    Ok (mkDB ((λ h, if decide (Habit.id h = habit_id)
                    then set_name_color name color h else h) <$> habit db)
             (checking db)).

(** [db.session.delete(habit); db.session.commit()]: the relationship of
    line 33 has [cascade='all, delete-orphan'], so the session deletes the
    habit's checkings with it. *)
Definition delete_habit_row (h : Habit.t) (db : DB) : DB :=
  mkDB (filter (λ h', Habit.id h' ≠ Habit.id h) (habit db))
       (filter (λ c, Checking.habit_id c ≠ Habit.id h) (checking db)).

(** [db.session.add(Checking(habit_id=hid, date=d)); db.session.commit()];
    no foreign key is checked. *)
Definition insert_checking (hid : Z) (d : date) (db : DB) : result DB :=
  if decide ((hid, d) ∈ checking_key <$> checking db) then Raise IntegrityError
  else
    Ok (mkDB (habit db)
             (checking db ++ [Checking.mk (next_id (Checking.id <$> checking db)) hid d])).

(** [db.session.delete(existing); db.session.commit()] *)
Definition delete_checking (existing : Checking.t) (db : DB) : DB :=
  mkDB (habit db)
       (filter (λ c, Checking.id c ≠ Checking.id existing) (checking db)).

(** ** Handlers *)

Definition json_habit (h : Habit.t) : json :=
  JDict [("ok", JBool true); ("id", JInt (Habit.id h));
         ("name", JStr (Habit.name h)); ("color", JStr (Habit.color h))].

Definition json_error (error : string) : json :=
  JDict [("ok", JBool false); ("error", JStr error)].

Definition form_name (r : request) : string :=
  strip (default "" (dict_get (form r) "name")).

Definition form_color (r : request) : string :=
  strip (default "#3b82f6" (dict_get (form r) "color")).

(** [create_habit], lines 109-136; [now] is [datetime.utcnow()]. *)
Definition create_habit (now : Z) (r : request) (db : DB) : outcome :=
  let name := form_name r in
  let color := form_color r in
  if decide (name = "") then
    mkOutcome db [("Name is required", "error")] (Redirect "habits_page")
  else
    match insert_habit name color now db with
    | Ok (habit, db') =>
        mkOutcome db' [("Habit created", "success")]
          (if wants_json r then Jsonify 200 (json_habit habit)
           else Redirect "habits_page")
    | Raise IntegrityError =>
        mkOutcome db [("Habit name must be unique", "error")]
          (if wants_json r then Jsonify 400 (json_error "unique")
           else Redirect "habits_page")
    | Raise _ =>
        mkOutcome db [("An error occurred", "error")]
          (if wants_json r then Jsonify 500 (json_error "server")
           else Redirect "habits_page")
    end.

(** [edit_habit], lines 138-156. *)
Definition edit_habit (habit_id : Z) (r : request) (db : DB) : outcome :=
  match get_or_404 db habit_id with
  | Raise e => mkOutcome db [] (InternalServerError e)
  | Ok None => mkOutcome db [] NotFound
  | Ok (Some habit) =>
      let name := form_name r in
      let color := form_color r in
      if decide (name = "") then
        mkOutcome db [] (Jsonify 400 (json_error "Name required"))
      else
        match update_habit (Habit.id habit) name color db with
        | Ok db' =>
            mkOutcome db' [("Habit updated", "success")]
              (Jsonify 200 (json_habit (set_name_color name color habit)))
        | Raise IntegrityError =>
            mkOutcome db [] (Jsonify 400 (json_error "unique"))
        | Raise _ =>
            mkOutcome db [] (Jsonify 500 (json_error "server"))
        end
  end.

(** [delete_habit], lines 158-173.  Deleting rows breaks no constraint, so
    the [except] branch has no counterpart here. *)
Definition delete_habit (habit_id : Z) (r : request) (db : DB) : outcome :=
  match get_or_404 db habit_id with
  | Raise e => mkOutcome db [] (InternalServerError e)
  | Ok None => mkOutcome db [] NotFound
  | Ok (Some habit) =>
      mkOutcome (delete_habit_row habit db) [("Habit deleted", "success")]
        (if wants_json r then Jsonify 200 (JDict [("ok", JBool true)])
         else Redirect "habits_page")
  end.

(** Python's truth value of a decoded JSON value. *)
Definition truthy (j : json) : bool :=
  match j with
  | JNull => false
  | JBool b => b
  | JInt n => negb (n =? 0)%Z
  | JStr s => negb (bool_decide (s = ""))
  | JList l => negb (bool_decide (l = []))
  | JDict kv => match kv with [] => false | _ => true end
  end.

(** [request.get_json(silent=True) or request.form] *)
Inductive data :=
  | DataJson (j : json)
  | DataForm (fields : list (string * string)).

Definition request_data (r : request) : data :=
  match get_json r with
  | Some j => if truthy j then DataJson j else DataForm (form r)
  | None => DataForm (form r)
  end.

(** [data.get(key)]: [None] here is the [AttributeError] of a JSON value that
    is no dict, and Python's [None] for a missing key is [JNull]. *)
Definition data_get (d : data) (key : string) : option json :=
  match d with
  | DataForm fields => Some (from_option JStr JNull (dict_get fields key))
  | DataJson (JDict kv) => Some (default JNull (dict_get kv key))
  | DataJson _ => None
  end.

(** [int(v)]; [None] is a [TypeError] or a [ValueError]. *)
Definition py_int `{Builtins} (v : json) : option Z :=
  match v with
  | JInt n => Some n
  | JBool b => Some (if b then 1 else 0)%Z
  | JStr s => int_of_str s
  | _ => None
  end.

(** [date.fromisoformat(v)] *)
Definition py_fromisoformat `{Builtins} (v : json) : option date :=
  match v with
  | JStr s => fromisoformat s
  | _ => None
  end.

(** The [try] block of lines 179-183: [None] when it ends in [except]. *)
Definition toggle_payload `{Builtins} (r : request) : option (Z * date) :=
  let data := request_data r in
  v ← data_get data "habit_id";
  hid ← py_int v;
  w ← data_get data "date";
  d ← py_fromisoformat w;
  Some (hid, d).

Definition habit_dates (db : DB) (hid : Z) : gset date :=
  list_to_set (Checking.date <$> filter (λ c, Checking.habit_id c = hid) (checking db)).

Definition toggle_reply (status : bool) (streak : nat) : response :=
  Jsonify 200 (JDict [("ok", JBool true); ("checked", JBool status);
                      ("streak", JInt (Z.of_nat streak))]).

(** Lines 185-194: the row is deleted or inserted and committed. *)
Definition toggle_commit (hid : Z) (d : date) (db : DB) : result (DB * bool) :=
  match first_checking db hid d with
  | Some existing => Ok (delete_checking existing db, false)
  | None => db' ← insert_checking hid d db; Ok (db', true)
  end.

(** [toggle], lines 175-200; [today] is [date.today()].  The query of line
    185 binds [hid]: outside the 64-bit range it raises [OverflowError]
    before anything is written, and the request ends in a 500. *)
Definition toggle `{Builtins} (today : date) (r : request) (db : DB) : outcome :=
  match toggle_payload r with
  | None => mkOutcome db [] (Jsonify 400 (json_error "invalid_payload"))
  | Some (hid, d) =>
      if decide (int64 hid) then
        match toggle_commit hid d db with
        | Raise e => mkOutcome db [] (InternalServerError e)
        | Ok (db', status) =>
            mkOutcome db' []
              (respond (toggle_reply status <$>
                          get_streak_from_dates (habit_dates db' hid) today))
        end
      else mkOutcome db [] (InternalServerError OverflowError)
  end.

(** ** Vocabulary of the statements *)

(** Habit [hid] has a checking on [day]. *)
Definition checked_on (db : DB) (hid : Z) (day : date) : Prop :=
  (hid, day) ∈ checking_key <$> checking db.

#[global] Instance checked_on_dec db hid day : Decision (checked_on db hid day).
Proof. unfold checked_on. apply _. Defined.

(** The habit ids that have a checking on [day]. *)
Definition habits_checked_on (db : DB) (day : date) : gset Z :=
  list_to_set (Checking.habit_id <$> filter (λ c, Checking.date c = day) (checking db)).

(** The rows of the habit table that have a checking on [day]. *)
Definition habit_rows_checked_on (db : DB) (day : date) : list Habit.t :=
  filter (λ h, checked_on db (Habit.id h) day) (habit db).

(** Every checking belongs to a habit of the table. *)
Definition owned (db : DB) : Prop :=
  ∀ c, c ∈ checking db → Checking.habit_id c ∈ Habit.id <$> habit db.

(** The JSON object that carries the fields of a form. *)
Definition fields_json (fields : list (string * string)) : json :=
  JDict (prod_map id JStr <$> fields).

(** The day [back] days before [today]. *)
Definition days_ago (today : date) (back : Z) : date := Z.to_pos (Z.pos today - back).

(** ** Example data *)

Definition habit_read : Habit.t := Habit.mk 1 "Read" "#3b82f6" "daily" 1 0.
Definition habit_run : Habit.t := Habit.mk 2 "Run" "#ff0000" "daily" 1 5.

(** Two habits; 738886 is 2024-01-01, a Monday. *)
Definition db_example : DB :=
  mkDB [habit_read; habit_run]
       [Checking.mk 1 1 738886; Checking.mk 2 2 738886; Checking.mk 3 1 738884].

Definition form_request (fields : list (string * string)) : request :=
  mkRequest (FormBody fields) None.

Definition ajax_request (fields : list (string * string)) : request :=
  mkRequest (FormBody fields) (Some "XMLHttpRequest").

Definition json_request (j : json) : request :=
  mkRequest (JsonBody (Some j)) None.

(** [{"habit_id": hid, "date": iso}] *)
Definition toggle_json (hid : Z) (iso : string) : request :=
  json_request (JDict [("habit_id", JInt hid); ("date", JStr iso)]).

(** ** Reference parsers

    Plain decimal digits and the [YYYY-MM-DD] form, the inputs on which every
    version of Python agrees; the examples run the handlers with them. *)

Definition digit (c : Ascii.ascii) : option Z :=
  let n := Z.of_nat (Ascii.nat_of_ascii c) in
  if decide (48 ≤ n ≤ 57)%Z then Some (n - 48)%Z else None.

Fixpoint digits (acc : Z) (s : string) : option Z :=
  match s with
  | EmptyString => Some acc
  | String c s' => v ← digit c; digits (10 * acc + v)%Z s'
  end.

Definition int_of_digits (s : string) : option Z :=
  match s with EmptyString => None | _ => digits 0 s end.

Definition is_leap (y : Z) : bool :=
  ((y mod 4 =? 0) && (negb (y mod 100 =? 0) || (y mod 400 =? 0)))%Z.

Definition days_in_month (y m : Z) : Z :=
  match m with
  | 2 => if is_leap y then 29 else 28
  | 4 | 6 | 9 | 11 => 30
  | _ => 31
  end%Z.

Definition days_before_year (y : Z) : Z :=
  (let p := y - 1 in p * 365 + p / 4 - p / 100 + p / 400)%Z.

Definition days_before_month (y m : Z) : Z :=
  foldr Z.add 0%Z ((λ k, days_in_month y (Z.of_nat k)) <$> seq 1 (Z.to_nat (m - 1))).

(** [date(y, m, d).toordinal()] *)
Definition date_of_ymd (y m d : Z) : option date :=
  if decide (1 ≤ y ≤ 9999 ∧ 1 ≤ m ≤ 12 ∧ 1 ≤ d ≤ days_in_month y m)%Z
  then Some (Z.to_pos (days_before_year y + days_before_month y m + d))
  else None.

Definition hyphen : Ascii.ascii := Ascii.ascii_of_nat 45.

Definition iso_ymd (s : string) : option date :=
  if decide (String.length s = 10 ∧ String.get 4 s = Some hyphen
             ∧ String.get 7 s = Some hyphen)
  then
    y ← int_of_digits (String.substring 0 4 s);
    m ← int_of_digits (String.substring 5 2 s);
    d ← int_of_digits (String.substring 8 2 s);
    date_of_ymd y m d
  else None.

Definition reference : Builtins :=
  {| int_of_str := int_of_digits; fromisoformat := iso_ymd |}.

(** ** The read-only routes *)

(** [h.checking], the relationship of line 33: the checkings whose habit_id
    is the habit's id. *)
Definition habit_checking (db : DB) (h : Habit.t) : list Checking.t :=
  filter (λ c, Checking.habit_id c = Habit.id h) (checking db).

(** The context [index] hands to its template. *)
Record dashboard := mkDashboard {
  dash_habits : list Habit.t;
  dash_days : list date;
  Check_map : gset (Z * date);
  dash_today : date;
  streaks : gmap Z nat
}.

(** [{h.id: {c.date for c in h.checking} for h in habits}] *)
Definition habit_dates_dict (db : DB) (habits : list Habit.t) : gmap Z (gset date) :=
  foldl (λ m h, <[Habit.id h := list_to_set (Checking.date <$> habit_checking db h)]> m)
        ∅ habits.

(** [{h.id: get_streak_from_dates(habit_dates.get(h.id, set()), today) for h in habits}]:
    the first streak that raises ends the comprehension. *)
Definition streaks_dict (today : date) (dates : gmap Z (gset date))
    (habits : list Habit.t) : result (gmap Z nat) :=
  foldl (λ acc h,
           m ← acc;
           s ← get_streak_from_dates (default ∅ (dates !! Habit.id h)) today;
           Ok (<[Habit.id h := s]> m))
        (Ok ∅) habits.

(** [index], lines 86-102 (the name [index] is taken by the list access
    above).  [habits] is the result of the query of line 93, the rows of the
    habit table newest first; the engine orders the habits created at the
    same instant.  The window has seven days, so [days[0]] exists whenever
    the window does. *)
Definition index_route (today : date) (db : DB) (habits : list Habit.t)
    : result dashboard :=
  days ← window today 7;
  first ← index days 0;
  let check_map : gset (Z * date) :=
    list_to_set
      (habits ≫= λ h,
         checking_key <$>
           filter (λ c, (first ≤ Checking.date c)%positive) (habit_checking db h)) in
  let dates := habit_dates_dict db habits in
  streaks ← streaks_dict today dates habits;
  Ok (mkDashboard habits days check_map today streaks).

(** [(colors * 7)[:7]] *)
Definition palette_of (colors : list string) : list string :=
  take 7 (mjoin (replicate 7 colors)).

Definition json_series (labels : list string) (data : list Z) : list (string * json) :=
  [("labels", JList (JStr <$> labels)); ("data", JList (JInt <$> data))].

(** [analytics_json], lines 202-216; [Habit.query.all()] gives the table in
    rowid order. *)
Definition analytics_json (today : date) (db : DB) : response :=
  respond (
    series ← get_weekly_data_all_habits db today 7;
    let habits := habit db in
    let palette :=
      match habits with
      | [] => replicate 7 "#3b82f6"
      | _ => palette_of (Habit.color <$> habits)
      end in
    Ok (Jsonify 200 (JDict (json_series series.1 series.2
                              ++ [("colors", JList (JStr <$> palette))])))).

(** [habit_analytics_json], lines 218-229. *)
Definition habit_analytics_json (today : date) (habit_id : Z) (db : DB) : response :=
  match get_or_404 db habit_id with
  | Raise e => InternalServerError e
  | Ok None => NotFound
  | Ok (Some habit) =>
      respond (
        series ← get_weekly_data_for_habit db today habit_id 7;
        Ok (Jsonify 200 (JDict (json_series series.1 series.2
                                  ++ [("color", JStr (Habit.color habit));
                                      ("name", JStr (Habit.name habit))]))))
  end.

(** ** Sequences of requests *)

Inductive call :=
  | CreateHabit (now : Z) (r : request)
  | EditHabit (habit_id : Z) (r : request)
  | DeleteHabit (habit_id : Z) (r : request)
  | Toggle (today : date) (r : request).

Definition handle `{Builtins} (c : call) (db : DB) : outcome :=
  match c with
  | CreateHabit now r => create_habit now r db
  | EditHabit habit_id r => edit_habit habit_id r db
  | DeleteHabit habit_id r => delete_habit habit_id r db
  | Toggle today r => toggle today r db
  end.

(** The database after the requests, served one after the other. *)
Definition serve `{Builtins} (calls : list call) (db : DB) : DB :=
  foldl (λ db c, db_after (handle c db)) db calls.

(** ** More vocabulary *)

(** A name as the handlers store it: not empty, no blank at either end. *)
Definition clean_name (s : string) : Prop := s ≠ "" ∧ strip s = s.

Definition names_clean (db : DB) : Prop :=
  ∀ h, h ∈ habit db → clean_name (Habit.name h).

Fixpoint all_space (s : string) : bool :=
  match s with
  | EmptyString => true
  | String c s' => is_space c && all_space s'
  end.

(** The days of the window, oldest first. *)
Definition window_list (today : date) (N : Z) : list date :=
  (λ i, days_ago today (Z.of_nat i)) <$> reverse (seq 0 (Z.to_nat N)).

(** The value of day [i] in the weekly series of habit [h]. *)
Definition habit_value (db : DB) (today : date) (N : Z) (h : Habit.t) (i : nat) : Z :=
  match get_weekly_data_for_habit db today (Habit.id h) N with
  | Ok (_, data) => default 0%Z (data !! i)
  | Raise _ => 0%Z
  end.

#[global] Instance habit_eq_dec : EqDecision Habit.t.
Proof. solve_decision. Defined.

(** The answer of [toggle] to a payload it cannot read. *)
Definition invalid_payload (db : DB) : outcome :=
  mkOutcome db [] (Jsonify 400 (json_error "invalid_payload")).

(** * Properties *)

(** ** Dates and the result monad *)

Lemma date_sub_Ok (d d' : date) (n : nat) :
  date_sub d n = Ok d' ↔ (Z.pos d' = Z.pos d - Z.of_nat n)%Z.
Proof.
  unfold date_sub. destruct (Z.pos d - Z.of_nat n)%Z eqn:E; split; intros H;
    try discriminate; try lia.
  - injection H as ->. reflexivity.
  - f_equal. lia.
Qed.

Lemma date_sub_Raise (d : date) (n : nat) (e : exn) :
  date_sub d n = Raise e ↔ e = OverflowError ∧ (Z.pos d ≤ Z.of_nat n)%Z.
Proof.
  unfold date_sub. destruct (Z.pos d - Z.of_nat n)%Z eqn:E; split;
    try (intros H; discriminate); try (intros [_ H]; lia).
  - intros H; injection H as <-. split; [done | lia].
  - intros [-> _]. done.
  - intros H; injection H as <-. split; [done | lia].
  - intros [-> _]. done.
Qed.

Example iso_ymd_2024 : iso_ymd "2024-01-01" = Some 738886%positive.
Proof. vm_compute. reflexivity. Qed.

Example strftime_2024 : strftime_a 738886 = "Mon".
Proof. vm_compute. reflexivity. Qed.

Lemma date_sub_one_min : date_sub date_min 1 = Raise OverflowError.
Proof. reflexivity. Qed.

Lemma date_sub_one_succ (p : date) : date_sub (Pos.succ p) 1 = Ok p.
Proof. apply date_sub_Ok. lia. Qed.

(** ** The streak *)

Lemma streak_loop_step (D : gset date) (s : nat) (d : date) :
  streak_loop D s d =
    if decide (d ∈ D) then
      match date_sub d 1 with
      | Ok d' => streak_loop D (S s) d'
      | Raise e => Raise e
      end
    else Ok s.
Proof.
  funelim (streak_loop D s d);
    repeat match goal with
           | H : decide _ = _ |- _ => rewrite H; clear H
           | H : date_sub _ _ = _ |- _ => rewrite H
           end; reflexivity.
Qed.

Lemma streak_loop_acc (D : gset date) (d : date) :
  ∀ s, streak_loop D s d = (λ n, s + n) <$> streak_loop D 0 d.
Proof.
  induction d as [|p IH] using Pos.peano_ind; intros s.
  - rewrite (streak_loop_step D s), (streak_loop_step D 0).
    destruct (decide (1%positive ∈ D)); simpl; [reflexivity |].
    f_equal; lia.
  - rewrite (streak_loop_step D s), (streak_loop_step D 0).
    destruct (decide (Pos.succ p ∈ D)); simpl; [| f_equal; lia].
    rewrite date_sub_one_succ.
    rewrite (IH (S s)), (IH 1).
    destruct (streak_loop D 0 p); simpl; [f_equal; lia | reflexivity].
Qed.

Lemma streak_loop_ext (D D' : gset date) (d : date) :
  ∀ s, (∀ p, (p ≤ d)%positive → p ∈ D ↔ p ∈ D') →
       streak_loop D s d = streak_loop D' s d.
Proof.
  induction d as [|p IH] using Pos.peano_ind; intros s Hagree.
  - rewrite (streak_loop_step D), (streak_loop_step D').
    destruct (decide (1%positive ∈ D)) as [Hin|Hout],
             (decide (1%positive ∈ D')) as [Hin'|Hout']; try reflexivity.
    + exfalso. apply Hout', Hagree; [lia | done].
    + exfalso. apply Hout, Hagree; [lia | done].
  - rewrite (streak_loop_step D), (streak_loop_step D').
    assert (streak_loop D (S s) p = streak_loop D' (S s) p) as Hrec.
    { apply IH. intros q Hq. apply Hagree. lia. }
    rewrite date_sub_one_succ, Hrec.
    destruct (decide (Pos.succ p ∈ D)) as [Hin|Hout],
             (decide (Pos.succ p ∈ D')) as [Hin'|Hout']; try reflexivity.
    + exfalso. apply Hout', Hagree; [lia | done].
    + exfalso. apply Hout, Hagree; [lia | done].
Qed.

Lemma streak_bound (d : date) :
  ∀ D : gset date,
    match get_streak_from_dates D d with
    | Ok n => n ≤ size D
    | Raise e => e = OverflowError ∧ Pos.to_nat d ≤ size D
    end.
Proof.
  unfold get_streak_from_dates.
  induction d as [|p IH] using Pos.peano_ind; intros D.
  - rewrite streak_loop_step.
    destruct (decide (1%positive ∈ D)) as [Hin|Hout]; simpl; [| lia].
    split; [reflexivity |].
    assert (size D ≠ 0); [| lia].
    intros Hz. apply size_empty_inv in Hz. set_solver.
  - rewrite streak_loop_step.
    destruct (decide (Pos.succ p ∈ D)) as [Hin|Hout]; simpl; [| lia].
    rewrite date_sub_one_succ, streak_loop_acc.
    rewrite (streak_loop_ext D (D ∖ {[Pos.succ p]})).
    2:{ intros q Hq. rewrite elem_of_difference, elem_of_singleton.
        split; [intros ?; split; [done | lia] | intros [? _]; done]. }
    specialize (IH (D ∖ {[Pos.succ p]})).
    assert (size (D ∖ {[Pos.succ p]}) = size D - 1) as Hsz.
    { rewrite size_difference by set_solver. by rewrite size_singleton. }
    assert (size D ≠ 0).
    { intros Hz. apply size_empty_inv in Hz. set_solver. }
    destruct (streak_loop (D ∖ {[Pos.succ p]}) 0 p); simpl.
    + lia.
    + destruct IH as [-> IH]. split; [reflexivity | lia].
Qed.

Lemma streak_loop_turns_enough (D : gset date) (turns : nat) :
  ∀ s d,
    match streak_loop D 0 d with
    | Ok n => n < turns
    | Raise _ => Pos.to_nat d ≤ turns
    end →
    streak_loop_turns turns D s d = Some (streak_loop D s d).
Proof.
  induction turns as [|turns IH]; intros s d Hfuel.
  - destruct (streak_loop D 0 d); lia.
  - simpl. rewrite (streak_loop_step D s d).
    rewrite (streak_loop_step D 0 d) in Hfuel.
    destruct (decide (d ∈ D)); [| reflexivity].
    destruct (date_sub d 1) as [d'|err] eqn:Hsub; [| reflexivity].
    apply IH. apply date_sub_Ok in Hsub.
    rewrite streak_loop_acc in Hfuel.
    destruct (streak_loop D 0 d'); simpl in Hfuel; lia.
Qed.

(** A checking two days ago and one today, none yesterday: the streak is 1;
    every day but today: the streak is 0. *)
Example streak_after_gap :
  get_streak_from_dates {[738886; 738884]}%positive 738886%positive = Ok 1.
Proof. vm_compute. reflexivity. Qed.

Example streak_without_today :
  get_streak_from_dates {[738885; 738884; 738883]}%positive 738886%positive = Ok 0.
Proof. vm_compute. reflexivity. Qed.

Example streak_reaches_date_min :
  get_streak_from_dates {[3; 2; 1]}%positive 3%positive = Raise OverflowError.
Proof. vm_compute. reflexivity. Qed.

(** C1.  The streak is 0 when the reference date is not a completion date,
    and otherwise what the Python expression
    [1 + get_streak_from_dates(D, T - timedelta(days=1))] evaluates to, the
    [OverflowError] of the date subtraction at [date.min] included; on the
    empty set it is 0. *)
Theorem streak_recurrence (D : gset date) (T : date) :
  (T ∉ D → get_streak_from_dates D T = Ok 0) ∧
  (T ∈ D →
   get_streak_from_dates D T =
     T' ← date_sub T 1; n ← get_streak_from_dates D T'; Ok (1 + n)) ∧
  get_streak_from_dates ∅ T = Ok 0.
Proof.
  unfold get_streak_from_dates. split; [| split].
  - intros Hout. rewrite streak_loop_step. by destruct (decide (T ∈ D)).
  - intros Hin. rewrite streak_loop_step.
    destruct (decide (T ∈ D)); [| done].
    destruct (date_sub T 1) as [T'|err]; simpl; [| reflexivity].
    rewrite streak_loop_acc. by destruct (streak_loop D 0 T').
  - rewrite streak_loop_step.
    destruct (decide (T ∈ (∅ : gset date))) as [Hin|]; [| reflexivity].
    set_solver.
Qed.

Lemma streak_recurrence_witness :
  get_streak_from_dates {[738886; 738885]}%positive 738886%positive =
    T' ← date_sub 738886%positive 1;
    n ← get_streak_from_dates {[738886; 738885]}%positive T'; Ok (1 + n).
Proof.
  apply (proj1 (proj2 (streak_recurrence {[738886; 738885]}%positive 738886%positive))).
  apply elem_of_union_l, elem_of_singleton. reflexivity.
Defined.

(** C10.  The loop of [get_streak_from_dates] stops within [size D + 1] tests
    of its condition, and the streak it returns is at most [size D]; when it
    stops by raising, at [date.min], it has counted the ordinal of the
    reference date, which is at most [size D] too. *)
Theorem streak_terminates (D : gset date) (T : date) :
  streak_loop_turns (S (size D)) D 0 T = Some (get_streak_from_dates D T) ∧
  match get_streak_from_dates D T with
  | Ok n => n ≤ size D
  | Raise e => e = OverflowError ∧ Pos.to_nat T ≤ size D
  end.
Proof.
  pose proof (streak_bound T D) as Hb. split; [| exact Hb].
  apply streak_loop_turns_enough. unfold get_streak_from_dates in Hb.
  destruct (streak_loop D 0 T); [lia | destruct Hb; lia].
Qed.

(** ** The day window *)

Lemma comprehension_Ok {A B} (f : A → result B) (g : A → B) (xs : list A) :
  (∀ x, x ∈ xs → f x = Ok (g x)) → comprehension f xs = Ok (g <$> xs).
Proof.
  induction xs as [|x xs IH]; intros Hf; [reflexivity |].
  simpl. rewrite (Hf x) by apply list_elem_of_here. simpl.
  rewrite IH; [reflexivity |].
  intros y Hy. apply Hf. by apply list_elem_of_further.
Qed.

Lemma window_Ok (today : date) (N : Z) :
  (N ≤ Z.pos today)%Z →
  window today N = Ok ((λ i, days_ago today (Z.of_nat i)) <$> reverse (seq 0 (Z.to_nat N))).
Proof.
  intros HN. apply comprehension_Ok. intros i Hi.
  apply elem_of_reverse, elem_of_seq in Hi.
  apply date_sub_Ok. unfold days_ago. lia.
Qed.

Lemma window_lookup (today : date) (N : Z) (i : nat) :
  i < Z.to_nat N →
  ((λ i, days_ago today (Z.of_nat i)) <$> reverse (seq 0 (Z.to_nat N))) !! i
  = Some (days_ago today (N - 1 - Z.of_nat i)).
Proof.
  intros Hi. rewrite list_lookup_fmap, reverse_lookup by (rewrite length_seq; lia).
  rewrite length_seq, lookup_seq_lt by lia. simpl. f_equal. f_equal. lia.
Qed.

Lemma window_overflow (today : date) (N : Z) :
  (Z.pos today < N)%Z → window today N = Raise OverflowError.
Proof.
  intros HN. unfold window.
  replace (Z.to_nat N) with (S (Z.to_nat N - 1)) by lia.
  rewrite seq_S, reverse_app. simpl.
  assert (date_sub today (Z.to_nat N - 1) = Raise OverflowError) as ->; [| reflexivity].
  apply date_sub_Raise. split; [reflexivity | lia].
Qed.

Lemma window_empty (today : date) (N : Z) : (N ≤ 0)%Z → window today N = Ok [].
Proof. intros HN. unfold window. by replace (Z.to_nat N) with 0 by lia. Qed.


Lemma get_weekly_data_all_habits_raises (db : DB) (today : date) (N : Z) :
  ((N ≤ 0)%Z → get_weekly_data_all_habits db today N = Raise IndexError) ∧
  ((Z.pos today < N)%Z → get_weekly_data_all_habits db today N = Raise OverflowError).
Proof.
  unfold get_weekly_data_all_habits. split; intros HN.
  - by rewrite window_empty.
  - by rewrite window_overflow.
Qed.


Lemma window_days (today : date) (N : Z) :
  (1 ≤ N ≤ Z.pos today)%Z →
  ∃ days,
    window today N = Ok days ∧
    length days = Z.to_nat N ∧
    (∀ i, i < Z.to_nat N →
          days !! i = Some (days_ago today (N - 1 - Z.of_nat i))) ∧
    index days 0 = Ok (days_ago today (N - 1)) ∧
    last days = Some today ∧
    (∀ day, day ∈ days → (days_ago today (N - 1) ≤ day)%positive).
Proof.
  intros HN. eexists. split; [apply window_Ok; lia |].
  split; [by rewrite length_fmap, length_reverse, length_seq |].
  split; [intros i Hi; by apply window_lookup |].
  split; [| split].
  - unfold index. rewrite window_lookup by lia. do 2 f_equal. lia.
  - rewrite last_lookup, length_fmap, length_reverse, length_seq.
    rewrite window_lookup by lia. f_equal. unfold days_ago. lia.
  - intros day Hday. apply list_elem_of_lookup in Hday as [i Hi].
    assert (i < Z.to_nat N) as Hlt.
    { apply lookup_lt_Some in Hi.
      by rewrite length_fmap, length_reverse, length_seq in Hi. }
    rewrite window_lookup in Hi by done. injection Hi as <-.
    unfold days_ago. lia.
Qed.

Lemma checking_dates_spec (db : DB) (hid : Z) (first day : date) :
  (first ≤ day)%positive →
  day ∈ (list_to_set (Checking.date <$>
           filter (λ c, Checking.habit_id c = hid ∧ (first ≤ Checking.date c)%positive)
                  (checking db)) : gset date)
  ↔ checked_on db hid day.
Proof.
  intros Hle. unfold checked_on.
  rewrite elem_of_list_to_set, !list_elem_of_fmap. split.
  - intros (c & -> & Hc). apply list_elem_of_filter in Hc as [[<- _] Hc].
    by exists c.
  - intros (c & Hkey & Hc). injection Hkey as -> ->.
    exists c. split; [done |]. apply list_elem_of_filter. done.
Qed.



Example series_for_habit_example :
  get_weekly_data_for_habit
    (mkDB [] [Checking.mk 1 1 738886; Checking.mk 2 1 738884]) 738886 1 7
  = Ok (["Tue"; "Wed"; "Thu"; "Fri"; "Sat"; "Sun"; "Mon"], [0; 0; 0; 0; 1; 0; 1]%Z).
Proof. vm_compute. reflexivity. Qed.


(** ** The combined weekly counts *)

Lemma daily_counts_lookup (rows : list Checking.t) (day : date) :
  ∀ daily_counts : gmap date Z,
    default 0%Z (foldl count_checking daily_counts rows !! day)
    = (default 0 (daily_counts !! day)
       + Z.of_nat (length (filter (λ c, Checking.date c = day) rows)))%Z.
Proof.
  induction rows as [|c rows IH]; intros m; simpl; [lia |].
  rewrite IH. unfold count_checking at 1.
  destruct (decide (Checking.date c = day)) as [Heq|Hne].
  - rewrite filter_cons_True by done. rewrite Heq, lookup_insert_eq. simpl. lia.
  - rewrite filter_cons_False by done. rewrite lookup_insert_ne by done. lia.
Qed.

Lemma NoDup_fmap_eq {A B} (f : A → B) (l : list A) (x y : A) :
  NoDup (f <$> l) → x ∈ l → y ∈ l → f x = f y → x = y.
Proof.
  induction l as [|a l IH]; intros Hnd Hx Hy Hf; [by apply elem_of_nil in Hx |].
  rewrite fmap_cons in Hnd. apply NoDup_cons in Hnd as [Ha Hnd].
  apply elem_of_cons in Hx as [->|Hx]; apply elem_of_cons in Hy as [->|Hy]; try done.
  - exfalso. apply Ha. rewrite Hf. by apply list_elem_of_fmap_2.
  - exfalso. apply Ha. rewrite <- Hf. by apply list_elem_of_fmap_2.
  - by apply IH.
Qed.

Lemma NoDup_fmap_filter {A B} (f : A → B) (P : A → Prop) `{!∀ x, Decision (P x)}
    (l : list A) :
  NoDup (f <$> l) → NoDup (f <$> filter P l).
Proof.
  intros Hnd. eapply sublist_NoDup; [exact Hnd |].
  apply fmap_sublist, sublist_filter.
Qed.

Lemma habits_checked_on_spec (db : DB) (day : date) (hid : Z) :
  hid ∈ habits_checked_on db day ↔ checked_on db hid day.
Proof.
  unfold habits_checked_on, checked_on.
  rewrite elem_of_list_to_set, !list_elem_of_fmap. split.
  - intros (c & -> & Hc). apply list_elem_of_filter in Hc as [<- Hc]. by exists c.
  - intros (c & Hkey & Hc). injection Hkey as -> ->. exists c. split; [done |].
    by apply list_elem_of_filter.
Qed.

Lemma habit_rows_count (db : DB) (day : date) :
  NoDup (Habit.id <$> habit db) →
  owned db →
  length (habit_rows_checked_on db day) = size (habits_checked_on db day).
Proof.
  intros Hids Howned.
  assert (habits_checked_on db day
          = list_to_set (Habit.id <$> habit_rows_checked_on db day)) as ->.
  { apply set_eq. intros hid.
    rewrite habits_checked_on_spec, elem_of_list_to_set, list_elem_of_fmap.
    unfold habit_rows_checked_on. split.
    - intros Hon. pose proof Hon as Hc. unfold checked_on in Hc.
      apply list_elem_of_fmap in Hc as (c & Hkey & Hc). injection Hkey as -> ->.
      apply Howned, list_elem_of_fmap in Hc as (h & Hid & Hh).
      exists h. split; [done |]. apply list_elem_of_filter. by rewrite <- Hid.
    - intros (h & -> & Hh). by apply list_elem_of_filter in Hh as [Hon _]. }
  rewrite size_list_to_set, length_fmap; [done |].
  by apply NoDup_fmap_filter.
Qed.

Lemma rows_on_day_distinct_habits (db : DB) (day : date) :
  NoDup (checking_key <$> checking db) →
  length (filter (λ c, Checking.date c = day) (checking db))
  = size (habits_checked_on db day).
Proof.
  intros Hnd. unfold habits_checked_on.
  rewrite size_list_to_set, length_fmap; [reflexivity |].
  apply NoDup_fmap_2_strong.
  - intros x y [Hx Hxin]%list_elem_of_filter [Hy Hyin]%list_elem_of_filter Hh.
    apply (NoDup_fmap_eq checking_key (checking db)); try done.
    unfold checking_key. by rewrite Hh, Hx, Hy.
  - apply NoDup_filter. by apply NoDup_fmap_1 in Hnd.
Qed.

(** C3.  In every database where (habit_id, date) is unique, the value of the
    all-habits weekly series for a day of the window is the number of
    distinct habits that have a checking on that day: the number of distinct
    habit ids among the day's checkings, which is the number of rows of the
    habit table checked that day when every checking belongs to a habit of
    the table. *)
Theorem weekly_counts_distinct_habits (db : DB) (today : date) (N : Z) :
  NoDup (checking_key <$> checking db) →
  (1 ≤ N ≤ Z.pos today)%Z →
  ∃ days labels data,
    get_weekly_data_all_habits db today N = Ok (labels, data) ∧
    window today N = Ok days ∧
    data = (λ day, Z.of_nat (size (habits_checked_on db day))) <$> days ∧
    (NoDup (Habit.id <$> habit db) → owned db →
     data = (λ day, Z.of_nat (length (habit_rows_checked_on db day))) <$> days).
Proof.
  intros Hnd HN.
  destruct (window_days today N HN) as (days & Hw & Hlen & Hnth & H0 & Hlast & Hmin).
  exists days, (strftime_a <$> days),
    ((λ day, Z.of_nat (size (habits_checked_on db day))) <$> days).
  split; [| split; [done | split; [done |]]].
  - unfold get_weekly_data_all_habits. rewrite Hw. simpl. rewrite H0. simpl.
    do 2 f_equal. apply list_fmap_ext. intros i day Hday.
    apply list_elem_of_lookup_2, Hmin in Hday.
    rewrite daily_counts_lookup, lookup_empty. simpl.
    rewrite list_filter_filter_l by (intros c ->; done).
    by rewrite rows_on_day_distinct_habits.
  - intros Hids Howned. apply list_fmap_ext. intros i day _.
    by rewrite habit_rows_count.
Qed.

Lemma weekly_counts_distinct_habits_witness :
  ∃ days labels data,
    get_weekly_data_all_habits db_example 738886 7 = Ok (labels, data) ∧
    window 738886 7 = Ok days ∧
    data = (λ day, Z.of_nat (size (habits_checked_on db_example day))) <$> days ∧
    (NoDup (Habit.id <$> habit db_example) → owned db_example →
     data = (λ day, Z.of_nat (length (habit_rows_checked_on db_example day))) <$> days).
Proof.
  apply weekly_counts_distinct_habits; [| lia].
  compute_done.
Defined.

Example combined_counts_example :
  get_weekly_data_all_habits db_example 738886 7
  = Ok (["Tue"; "Wed"; "Thu"; "Fri"; "Sat"; "Sun"; "Mon"], [0; 0; 0; 0; 1; 0; 2]%Z).
Proof. vm_compute. reflexivity. Qed.

(** ** The persistence layer *)

Lemma get_habit_Some (db : DB) (habit_id : Z) (h : Habit.t) :
  get_habit db habit_id = Some h → h ∈ habit db ∧ Habit.id h = habit_id.
Proof.
  unfold get_habit. intros Hfind.
  apply fmap_Some in Hfind as ([i h'] & Hfind & ->).
  apply list_find_Some in Hfind as (Hi & Hid & _).
  split; [by eapply list_elem_of_lookup_2 | done].
Qed.

Lemma get_habit_None (db : DB) (habit_id : Z) :
  get_habit db habit_id = None ↔ habit_id ∉ Habit.id <$> habit db.
Proof.
  unfold get_habit. rewrite fmap_None, list_find_None, Forall_forall.
  rewrite list_elem_of_fmap. split.
  - intros Hall (h & -> & Hh). by apply (Hall h).
  - intros Hnone h Hh Hid. apply Hnone. by exists h.
Qed.

Lemma get_habit_elem_of (db : DB) (h : Habit.t) :
  h ∈ habit db → ∃ h', get_habit db (Habit.id h) = Some h'.
Proof.
  intros Hh. destruct (get_habit db (Habit.id h)) as [h'|] eqn:Hget; [by exists h' |].
  apply get_habit_None in Hget. exfalso. apply Hget. by apply list_elem_of_fmap_2.
Qed.

Lemma get_or_404_Some (db : DB) (habit_id : Z) (h : Habit.t) :
  get_habit db habit_id = Some h → get_or_404 db habit_id = Ok (Some h).
Proof. intros Hget. unfold get_or_404. by rewrite Hget. Qed.

Lemma get_or_404_None (db : DB) (habit_id : Z) :
  get_habit db habit_id = None →
  get_or_404 db habit_id
  = if decide (habit_id ≤ int64_max)%Z then Ok None else Raise OverflowError.
Proof. intros Hget. unfold get_or_404. by rewrite Hget. Qed.

Lemma next_id_above (ids : list Z) (i : Z) : i ∈ ids → (i < next_id ids)%Z.
Proof.
  unfold next_id. induction ids as [|j ids IH]; intros Hi; [by apply elem_of_nil in Hi |].
  simpl. apply elem_of_cons in Hi as [->|Hi]; [lia |]. specialize (IH Hi). lia.
Qed.

Lemma next_id_fresh (ids : list Z) : next_id ids ∉ ids.
Proof. intros Hin. apply next_id_above in Hin. lia. Qed.

(** ** Creating a habit *)

(** C5.  When the database holds a habit named [N], a create request whose
    name is [N] changes nothing in the database (the insert is rolled back,
    so the number of habits is the same), flashes the uniqueness message and,
    for a request that wants JSON, answers 400 with the error [unique]. *)
Theorem create_habit_duplicate (now : Z) (r : request) (db : DB) (N : string) :
  N ∈ Habit.name <$> habit db →
  form_name r = N →
  N ≠ "" →
  create_habit now r db =
    mkOutcome db [("Habit name must be unique", "error")]
      (if wants_json r then Jsonify 400 (json_error "unique")
       else Redirect "habits_page") ∧
  length (habit (db_after (create_habit now r db))) = length (habit db).
Proof.
  intros Hin Hname Hne.
  assert (create_habit now r db =
            mkOutcome db [("Habit name must be unique", "error")]
              (if wants_json r then Jsonify 400 (json_error "unique")
               else Redirect "habits_page")) as Hout.
  { unfold create_habit. rewrite Hname.
    destruct (decide (N = "")); [done |].
    unfold insert_habit. by destruct (decide (N ∈ Habit.name <$> habit db)). }
  rewrite Hout. done.
Qed.

Lemma create_habit_fresh (now : Z) (r : request) (db : DB) :
  form_name r ≠ "" →
  form_name r ∉ Habit.name <$> habit db →
  ∃ h, db_after (create_habit now r db) = mkDB (habit db ++ [h]) (checking db) ∧
       Habit.name h = form_name r ∧ Habit.color h = form_color r ∧
       Habit.id h ∉ Habit.id <$> habit db.
Proof.
  intros Hne Hfresh. unfold create_habit.
  destruct (decide (form_name r = "")); [done |].
  unfold insert_habit. destruct (decide (form_name r ∈ Habit.name <$> habit db)); [done |].
  eexists. split; [reflexivity |]. simpl. repeat split. apply next_id_fresh.
Qed.

Lemma create_habit_duplicate_witness :
  create_habit 9 (ajax_request [("name", " Read "); ("color", "#00ff00")]) db_example =
    mkOutcome db_example [("Habit name must be unique", "error")]
      (Jsonify 400 (json_error "unique")) ∧
  length (habit (db_after (create_habit 9
            (ajax_request [("name", " Read "); ("color", "#00ff00")]) db_example))) = 2.
Proof.
  apply (create_habit_duplicate 9
           (ajax_request [("name", " Read "); ("color", "#00ff00")]) db_example "Read").
  - compute_done.
  - reflexivity.
  - discriminate.
Defined.

(** ** Deleting a habit *)

(** C6.  Deleting an existing habit succeeds, and afterwards the database
    holds no checking of that habit, and no such habit; the checkings of the
    other habits stay. *)
Theorem delete_habit_cascade (r : request) (db : DB) (H : Habit.t) :
  H ∈ habit db →
  let out := delete_habit (Habit.id H) r db in
  reply out = (if wants_json r then Jsonify 200 (JDict [("ok", JBool true)])
               else Redirect "habits_page") ∧
  (∀ c, c ∈ checking (db_after out) → Checking.habit_id c ≠ Habit.id H) ∧
  (∀ day, ¬ checked_on (db_after out) (Habit.id H) day) ∧
  get_habit (db_after out) (Habit.id H) = None ∧
  checking (db_after out) =
    filter (λ c, Checking.habit_id c ≠ Habit.id H) (checking db).
Proof.
  intros HH. destruct (get_habit_elem_of db H HH) as [h' Hget].
  destruct (get_habit_Some _ _ _ Hget) as [_ Hid].
  unfold delete_habit. rewrite (get_or_404_Some _ _ _ Hget). simpl. rewrite Hid.
  split; [done |]. split; [| split; [| split; [| done]]].
  - intros c Hc. by apply list_elem_of_filter in Hc as [Hne _].
  - intros day. unfold checked_on. simpl. rewrite list_elem_of_fmap.
    intros (c & Hkey & Hc). apply list_elem_of_filter in Hc as [Hne _].
    injection Hkey as Hh _. congruence.
  - apply get_habit_None. simpl. rewrite list_elem_of_fmap.
    intros (h & Heq & Hh). apply list_elem_of_filter in Hh as [Hne _]. congruence.
Qed.

Lemma delete_habit_unknown (habit_id : Z) (r : request) (db : DB) :
  get_habit db habit_id = None →
  delete_habit habit_id r db
  = mkOutcome db []
      (if decide (habit_id ≤ int64_max)%Z then NotFound
       else InternalServerError OverflowError).
Proof.
  intros Hget. unfold delete_habit. rewrite (get_or_404_None _ _ Hget).
  by case_decide.
Qed.

Lemma delete_habit_cascade_witness :
  let out := delete_habit 1 (form_request []) db_example in
  reply out = Redirect "habits_page" ∧
  (∀ c, c ∈ checking (db_after out) → Checking.habit_id c ≠ 1%Z) ∧
  (∀ day, ¬ checked_on (db_after out) 1 day) ∧
  get_habit (db_after out) 1 = None ∧
  checking (db_after out) = [Checking.mk 2 2 738886].
Proof.
  apply (delete_habit_cascade (form_request []) db_example habit_read).
  apply list_elem_of_here.
Defined.

(** ** Editing a habit *)

(** C8.  An edit that succeeds leaves the checkings as they were and keeps
    every habit row in its place: a habit with another id is unchanged, and
    the edited one keeps its id, goal_type, target_per_day and created_at and
    takes the name and the color of the request. *)
Theorem edit_habit_frame (habit_id : Z) (r : request) (db : DB) (payload : json) :
  reply (edit_habit habit_id r db) = Jsonify 200 payload →
  let db' := db_after (edit_habit habit_id r db) in
  checking db' = checking db ∧
  length (habit db') = length (habit db) ∧
  ∀ i h, habit db !! i = Some h →
    ∃ h', habit db' !! i = Some h' ∧
      Habit.id h' = Habit.id h ∧
      Habit.goal_type h' = Habit.goal_type h ∧
      Habit.target_per_day h' = Habit.target_per_day h ∧
      Habit.created_at h' = Habit.created_at h ∧
      (Habit.id h ≠ habit_id → h' = h) ∧
      (Habit.id h = habit_id →
       Habit.name h' = form_name r ∧ Habit.color h' = form_color r).
Proof.
  unfold edit_habit, get_or_404.
  destruct (get_habit db habit_id) as [habit|] eqn:Hget;
    [| case_decide; discriminate].
  apply get_habit_Some in Hget as [_ ->].
  destruct (decide (form_name r = "")); [discriminate |].
  unfold update_habit. case_decide; [discriminate |]. simpl.
  intros _. split; [done |]. split; [by rewrite length_fmap |].
  intros i h Hi. rewrite list_lookup_fmap, Hi. simpl.
  eexists. split; [reflexivity |].
  destruct (decide (Habit.id h = habit_id)); simpl; naive_solver.
Qed.

(** An edit succeeds when the habit exists, the request carries a name, and
    no other habit has that name. *)
Lemma edit_habit_succeeds (r : request) (db : DB) (h : Habit.t) :
  get_habit db (Habit.id h) = Some h →
  form_name r ≠ "" →
  (∀ h', h' ∈ habit db → Habit.name h' = form_name r → Habit.id h' = Habit.id h) →
  reply (edit_habit (Habit.id h) r db)
  = Jsonify 200 (json_habit (set_name_color (form_name r) (form_color r) h)).
Proof.
  intros Hget Hname Hfree. unfold edit_habit. rewrite (get_or_404_Some _ _ _ Hget).
  destruct (decide (form_name r = "")); [done |].
  unfold update_habit. rewrite decide_False; [done |].
  intros (h' & Hh' & Hid & Hn)%Exists_exists. by apply Hid, Hfree.
Qed.

Lemma edit_habit_unknown (habit_id : Z) (r : request) (db : DB) :
  get_habit db habit_id = None →
  edit_habit habit_id r db
  = mkOutcome db []
      (if decide (habit_id ≤ int64_max)%Z then NotFound
       else InternalServerError OverflowError).
Proof.
  intros Hget. unfold edit_habit. rewrite (get_or_404_None _ _ Hget).
  by case_decide.
Qed.

Lemma edit_habit_frame_witness :
  let db' := db_after (edit_habit 2 (form_request [("name", "Jog"); ("color", "#0000ff")])
                                  db_example) in
  checking db' = checking db_example ∧
  length (habit db') = length (habit db_example) ∧
  ∀ i h, habit db_example !! i = Some h →
    ∃ h', habit db' !! i = Some h' ∧
      Habit.id h' = Habit.id h ∧
      Habit.goal_type h' = Habit.goal_type h ∧
      Habit.target_per_day h' = Habit.target_per_day h ∧
      Habit.created_at h' = Habit.created_at h ∧
      (Habit.id h ≠ 2%Z → h' = h) ∧
      (Habit.id h = 2%Z → Habit.name h' = "Jog" ∧ Habit.color h' = "#0000ff").
Proof.
  apply (edit_habit_frame 2 (form_request [("name", "Jog"); ("color", "#0000ff")])
           db_example
           (json_habit (Habit.mk 2 "Jog" "#0000ff" "daily" 1 5))).
  reflexivity.
Defined.

Example edit_example :
  db_after (edit_habit 2 (form_request [("name", "Jog"); ("color", "#0000ff")]) db_example)
  = mkDB [habit_read; Habit.mk 2 "Jog" "#0000ff" "daily" 1 5] (checking db_example).
Proof. reflexivity. Qed.

(** ** Toggling a checking *)

Lemma first_checking_Some (db : DB) (hid : Z) (d : date) (c : Checking.t) :
  first_checking db hid d = Some c → c ∈ checking db ∧ checking_key c = (hid, d).
Proof.
  unfold first_checking. intros Hfind.
  apply fmap_Some in Hfind as ([i c'] & Hfind & ->).
  apply list_find_Some in Hfind as (Hi & [Hh Hd] & _). simpl.
  split; [by eapply list_elem_of_lookup_2 |]. unfold checking_key. by rewrite Hh, Hd.
Qed.

Lemma first_checking_None (db : DB) (hid : Z) (d : date) :
  first_checking db hid d = None ↔ ¬ checked_on db hid d.
Proof.
  unfold first_checking, checked_on, checking_key.
  rewrite fmap_None, list_find_None, Forall_forall, list_elem_of_fmap. split.
  - intros Hall (c & Hkey & Hc). injection Hkey as -> ->. by apply (Hall c).
  - intros Hnone c Hc [Hh Hd]. apply Hnone. exists c. by rewrite Hh, Hd.
Qed.

Lemma filter_ext_elem_of {A} (P Q : A → Prop)
    `{!∀ x, Decision (P x), !∀ x, Decision (Q x)} (l : list A) :
  (∀ x, x ∈ l → P x ↔ Q x) → filter P l = filter Q l.
Proof.
  induction l as [|a l IH]; intros Hext; [done |].
  assert (filter P l = filter Q l) as Hrec.
  { apply IH. intros x Hx. apply Hext. by apply list_elem_of_further. }
  pose proof (Hext a (list_elem_of_here a l)) as Ha.
  destruct (decide (P a)) as [HP|HP].
  - rewrite !filter_cons_True by tauto. by rewrite Hrec.
  - rewrite !filter_cons_False by tauto. done.
Qed.

Lemma filter_all {A} (P : A → Prop) `{!∀ x, Decision (P x)} (l : list A) :
  (∀ x, x ∈ l → P x) → filter P l = l.
Proof.
  induction l as [|a l IH]; intros Hall; [done |].
  rewrite filter_cons_True by apply Hall, list_elem_of_here.
  f_equal. apply IH. intros x Hx. by apply Hall, list_elem_of_further.
Qed.

Lemma delete_checking_by_key (db : DB) (c : Checking.t) :
  NoDup (Checking.id <$> checking db) →
  NoDup (checking_key <$> checking db) →
  c ∈ checking db →
  checking (delete_checking c db)
  = filter (λ c', checking_key c' ≠ checking_key c) (checking db).
Proof.
  intros Hids Hkeys Hc. simpl. apply filter_ext_elem_of. intros x Hx. split.
  - intros Hne Heq. apply Hne. f_equal.
    by apply (NoDup_fmap_eq checking_key (checking db)).
  - intros Hne Heq. apply Hne. f_equal.
    by apply (NoDup_fmap_eq Checking.id (checking db)).
Qed.

Lemma keys_without_key (rows : list Checking.t) (k : Z * date) :
  NoDup (checking_key <$> rows) →
  k ∈ checking_key <$> rows →
  (checking_key <$> filter (λ c, checking_key c ≠ k) rows) ++ [k]
  ≡ₚ checking_key <$> rows.
Proof.
  intros Hnd Hk. apply NoDup_Permutation; [| done |].
  - apply NoDup_app. split; [| split; [| apply NoDup_singleton]].
    + apply NoDup_fmap_2_strong; [| apply NoDup_filter; by apply NoDup_fmap_1 in Hnd].
      intros x y [_ Hx]%list_elem_of_filter [_ Hy]%list_elem_of_filter.
      by apply (NoDup_fmap_eq checking_key rows).
    + intros k' Hk' ->%list_elem_of_singleton.
      apply list_elem_of_fmap in Hk' as (c & -> & Hc).
      by apply list_elem_of_filter in Hc as [Hne _].
  - intros k'. rewrite elem_of_app, list_elem_of_singleton, !list_elem_of_fmap. split.
    + intros [(c & -> & Hc)| ->].
      * apply list_elem_of_filter in Hc as [_ Hc]. by exists c.
      * by apply list_elem_of_fmap in Hk.
    + intros (c & -> & Hc). destruct (decide (checking_key c = k)) as [Heq|Hne];
        [by right | left]. exists c. split; [done |]. by apply list_elem_of_filter.
Qed.

Lemma toggle_commit_checked (db : DB) (hid : Z) (d : date) :
  checked_on db hid d →
  ∃ c, c ∈ checking db ∧ checking_key c = (hid, d) ∧
       toggle_commit hid d db = Ok (delete_checking c db, false).
Proof.
  intros Hon. unfold toggle_commit.
  destruct (first_checking db hid d) as [c|] eqn:Hfirst.
  - apply first_checking_Some in Hfirst as [Hc Hkey]. by exists c.
  - by apply first_checking_None in Hfirst.
Qed.

Lemma toggle_commit_unchecked (db : DB) (hid : Z) (d : date) :
  ¬ checked_on db hid d →
  toggle_commit hid d db
  = Ok (mkDB (habit db)
             (checking db ++ [Checking.mk (next_id (Checking.id <$> checking db)) hid d]),
        true).
Proof.
  intros Hoff. unfold toggle_commit.
  rewrite (proj2 (first_checking_None db hid d) Hoff).
  unfold insert_checking. by rewrite decide_False.
Qed.


(** The streak walk returns as soon as some day up to the reference date is
    no completion date. *)
Lemma streak_returns (D : gset date) (T gap : date) :
  (gap ≤ T)%positive → gap ∉ D → ∃ n, get_streak_from_dates D T = Ok n.
Proof.
  intros Hle Hgap. pose proof (streak_bound T D) as Hb.
  destruct (get_streak_from_dates D T) as [n|e] eqn:Hs; [by exists n |].
  exfalso. unfold get_streak_from_dates in Hs. clear Hb.
  revert Hle Hs. generalize 0. induction T as [|p IH] using Pos.peano_ind; intros s Hle Hs.
  - assert (gap = 1%positive) as -> by lia.
    rewrite streak_loop_step in Hs. by rewrite decide_False in Hs.
  - rewrite streak_loop_step in Hs. rewrite date_sub_one_succ in Hs.
    destruct (decide (Pos.succ p ∈ D)) as [Hin|]; [| discriminate].
    apply (IH (S s)); [| done].
    destruct (decide (gap = Pos.succ p)) as [->|]; [done | lia].
Qed.

(** [toggle] never meets the [IntegrityError] of the unique (habit_id, date)
    pair: it inserts only after it found no such row. *)
Lemma toggle_commit_Ok (db : DB) (hid : Z) (d : date) :
  ∃ db' status, toggle_commit hid d db = Ok (db', status).
Proof.
  destruct (decide (checked_on db hid d)) as [Hon|Hoff].
  - destruct (toggle_commit_checked db hid d Hon) as (c & _ & _ & ->). eauto.
  - rewrite (toggle_commit_unchecked db hid d Hoff). eauto.
Qed.

Lemma habit_dates_spec (db : DB) (hid : Z) (day : date) :
  day ∈ habit_dates db hid ↔ checked_on db hid day.
Proof.
  unfold habit_dates, checked_on.
  rewrite elem_of_list_to_set, !list_elem_of_fmap. split.
  - intros (c & -> & Hc). apply list_elem_of_filter in Hc as [<- Hc]. by exists c.
  - intros (c & Hkey & Hc). injection Hkey as -> ->. exists c. split; [done |].
    by apply list_elem_of_filter.
Qed.

(** A day without a checking, other than the toggled one, has none after the
    commit either. *)
Lemma toggle_commit_gap (db db' : DB) (hid : Z) (d gap : date) (status : bool) :
  toggle_commit hid d db = Ok (db', status) →
  gap ≠ d → ¬ checked_on db hid gap → gap ∉ habit_dates db' hid.
Proof.
  intros Hcommit Hne Hgap. rewrite habit_dates_spec. intros Hon. apply Hgap.
  destruct (decide (checked_on db hid d)) as [Hd|Hd].
  - destruct (toggle_commit_checked db hid d Hd) as (c & _ & _ & Heq).
    rewrite Heq in Hcommit. injection Hcommit as <- _.
    unfold checked_on in *. simpl in Hon.
    apply list_elem_of_fmap in Hon as (c' & Hkey & Hc').
    apply list_elem_of_filter in Hc' as [_ Hc'].
    rewrite Hkey. by apply list_elem_of_fmap_2.
  - rewrite (toggle_commit_unchecked db hid d Hd) in Hcommit.
    injection Hcommit as <- _. unfold checked_on in *. simpl in Hon.
    rewrite fmap_app in Hon. apply elem_of_app in Hon as [Hon|Hon]; [done |].
    apply list_elem_of_singleton in Hon. injection Hon as ->. done.
Qed.

(** The reply of line 200 once the streak walk has found a day that is no
    completion date. *)
Lemma respond_toggle_reply (D : gset date) (today gap : date) (status : bool) :
  (gap ≤ today)%positive → gap ∉ D →
  ∃ streak,
    get_streak_from_dates D today = Ok streak ∧
    respond (toggle_reply status <$> get_streak_from_dates D today)
    = Jsonify 200 (JDict [("ok", JBool true); ("checked", JBool status);
                          ("streak", JInt (Z.of_nat streak))]).
Proof.
  intros Hle Hgap. destruct (streak_returns D today gap Hle Hgap) as [n Hn].
  exists n. by rewrite Hn.
Qed.

Section Toggle.
Context `{Builtins}.

Lemma toggle_in_range (today : date) (r : request) (db : DB) (hid : Z) (d : date) :
  toggle_payload r = Some (hid, d) →
  int64 hid →
  toggle today r db
  = match toggle_commit hid d db with
    | Raise e => mkOutcome db [] (InternalServerError e)
    | Ok (db', status) =>
        mkOutcome db' []
          (respond (toggle_reply status <$>
                      get_streak_from_dates (habit_dates db' hid) today))
    end.
Proof. intros Hp Hrange. unfold toggle. by rewrite Hp, decide_True. Qed.

Lemma toggle_out_of_range (today : date) (r : request) (db : DB) (hid : Z) (d : date) :
  toggle_payload r = Some (hid, d) →
  ¬ int64 hid →
  toggle today r db = mkOutcome db [] (InternalServerError OverflowError).
Proof. intros Hp Hrange. unfold toggle. by rewrite Hp, decide_False. Qed.

(** A toggle leaves the other (habit, day) pairs as they were. *)
Lemma toggle_frame (today : date) (r : request) (db : DB) (hid hid' : Z) (d day : date) :
  constraints db →
  toggle_payload r = Some (hid, d) →
  (hid', day) ≠ (hid, d) →
  checked_on (db_after (toggle today r db)) hid' day ↔ checked_on db hid' day.
Proof.
  intros (_ & _ & Hids & Hkeys) Hpayload Hother.
  destruct (decide (int64 hid)) as [Hrange|Hrange];
    [| by rewrite (toggle_out_of_range today r db hid d)].
  rewrite (toggle_in_range today r db hid d) by done.
  destruct (decide (checked_on db hid d)) as [Hon|Hoff].
  - destruct (toggle_commit_checked db hid d Hon) as (c & Hc & Hkey & ->).
    simpl db_after. unfold checked_on.
    rewrite (delete_checking_by_key db c Hids Hkeys Hc), Hkey, !list_elem_of_fmap.
    split; intros (c' & Hk & Hc'); exists c'; (split; [done |]).
    + by apply list_elem_of_filter in Hc' as [_ Hc'].
    + apply list_elem_of_filter. split; [congruence | done].
  - rewrite (toggle_commit_unchecked db hid d Hoff). simpl db_after.
    unfold checked_on. simpl. rewrite fmap_app, elem_of_app. simpl.
    rewrite list_elem_of_singleton. unfold checking_key at 2. simpl. tauto.
Qed.

(** For an id that SQLite can hold, the reply of a toggle is the JSON body
    as soon as the id has some day without a checking, other than the toggled
    one, up to today: [checked] is the negation of what the table held, and
    [streak] is the streak of the table as the request leaves it. *)
Lemma toggle_replies_json (today : date) (r : request) (db : DB) (hid : Z) (d gap : date) :
  toggle_payload r = Some (hid, d) →
  int64 hid →
  (gap ≤ today)%positive → gap ≠ d → ¬ checked_on db hid gap →
  ∃ streak,
    get_streak_from_dates (habit_dates (db_after (toggle today r db)) hid) today
    = Ok streak ∧
    reply (toggle today r db)
    = Jsonify 200 (JDict [("ok", JBool true);
                          ("checked", JBool (negb (bool_decide (checked_on db hid d))));
                          ("streak", JInt (Z.of_nat streak))]).
Proof.
  intros Hpayload Hrange Hle Hne Hgap.
  rewrite (toggle_in_range today r db hid d) by done.
  destruct (decide (checked_on db hid d)) as [Hon|Hoff].
  - destruct (toggle_commit_checked db hid d Hon) as (c & _ & _ & Hcommit).
    pose proof (toggle_commit_gap _ _ _ _ gap _ Hcommit Hne Hgap) as Hout.
    rewrite Hcommit, bool_decide_true by done. simpl db_after. simpl reply.
    by apply (respond_toggle_reply _ today gap).
  - pose proof (toggle_commit_unchecked db hid d Hoff) as Hcommit.
    pose proof (toggle_commit_gap _ _ _ _ gap _ Hcommit Hne Hgap) as Hout.
    rewrite Hcommit, bool_decide_false by done. simpl db_after. simpl reply.
    by apply (respond_toggle_reply _ today gap).
Qed.


(** C9, amended.  A well-formed payload whose habit_id is the id of no habit
    is not answered with not-found, and the habits stay as they were.  When
    SQLite can hold the id, and the id has some day up to today, other than
    the toggled one, without a checking, the request succeeds: with no
    checking of (habit_id, date), one is inserted, of a habit that does not
    exist, and the reply is [ok: true, checked: true]; with one, left by an
    earlier such toggle, that one is deleted and the reply is
    [ok: true, checked: false]; either way with the streak of the table the
    request leaves. *)
Theorem toggle_unknown_habit (today : date) (r : request) (db : DB)
    (hid : Z) (d : date) :
  toggle_payload r = Some (hid, d) →
  get_habit db hid = None →
  let out := toggle today r db in
  reply out ≠ NotFound ∧
  flashed out = [] ∧
  habit (db_after out) = habit db ∧
  get_habit (db_after out) hid = None ∧
  (int64 hid →
   (¬ checked_on db hid d →
    checking (db_after out)
    = checking db ++ [Checking.mk (next_id (Checking.id <$> checking db)) hid d]) ∧
   (checked_on db hid d →
    ∃ c, c ∈ checking db ∧ checking_key c = (hid, d) ∧
         checking (db_after out)
         = filter (λ c', Checking.id c' ≠ Checking.id c) (checking db)) ∧
   (∀ gap, (gap ≤ today)%positive → gap ≠ d → ¬ checked_on db hid gap →
      ∃ streak,
        get_streak_from_dates (habit_dates (db_after out) hid) today = Ok streak ∧
        reply out
        = Jsonify 200
            (JDict [("ok", JBool true);
                    ("checked", JBool (negb (bool_decide (checked_on db hid d))));
                    ("streak", JInt (Z.of_nat streak))]))).
Proof.
  intros Hpayload Hnone out.
  destruct (decide (int64 hid)) as [Hrange|Hrange].
  2:{ unfold out. rewrite (toggle_out_of_range today r db hid d) by done.
      simpl. repeat (split; [done |]). intros Hin. by destruct Hrange. }
  assert (habit (db_after out) = habit db) as Hhabit.
  { unfold out. rewrite (toggle_in_range today r db hid d) by done.
    destruct (toggle_commit_Ok db hid d) as (db' & status & Hcommit).
    rewrite Hcommit. simpl.
    destruct (decide (checked_on db hid d)) as [Hon|Hoff].
    - destruct (toggle_commit_checked db hid d Hon) as (c & _ & _ & Heq).
      rewrite Heq in Hcommit. by injection Hcommit as <- _.
    - rewrite (toggle_commit_unchecked db hid d Hoff) in Hcommit.
      by injection Hcommit as <- _. }
  split; [| split; [| split; [done | split]]].
  - unfold out. rewrite (toggle_in_range today r db hid d) by done.
    destruct (toggle_commit_Ok db hid d) as (db' & status & ->). simpl.
    by destruct (get_streak_from_dates _ _).
  - unfold out. rewrite (toggle_in_range today r db hid d) by done.
    by destruct (toggle_commit_Ok db hid d) as (db' & status & ->).
  - unfold get_habit in *. by rewrite Hhabit.
  - intros _. split; [| split].
    + intros Hoff. unfold out. rewrite (toggle_in_range today r db hid d) by done.
      by rewrite (toggle_commit_unchecked db hid d Hoff).
    + intros Hon. unfold out. rewrite (toggle_in_range today r db hid d) by done.
      destruct (toggle_commit_checked db hid d Hon) as (c & Hc & Hkey & ->).
      by exists c.
    + intros gap Hle Hne Hgap.
      apply (toggle_replies_json today r db hid d gap Hpayload Hrange Hle Hne Hgap).
Qed.

End Toggle.

(** A first toggle of today for a habit with no checking. *)
Example toggle_first_checking :
  toggle (H:=reference) 738886 (toggle_json 1 "2024-01-01") (mkDB [habit_read] [])
  = mkOutcome (mkDB [habit_read] [Checking.mk 1 1 738886]) []
      (Jsonify 200 (JDict [("ok", JBool true); ("checked", JBool true);
                           ("streak", JInt 1)])).
Proof. vm_compute. reflexivity. Qed.

(** With every day since 0001-01-01 checked, the walk of the streak leaves
    the calendar: the row is committed and the request ends in a 500. *)
Example toggle_streak_overflow :
  toggle (H:=reference) 3 (toggle_json 1 "0001-01-02")
    (mkDB [habit_read] [Checking.mk 1 1 1; Checking.mk 2 1 3])
  = mkOutcome (mkDB [habit_read] [Checking.mk 1 1 1; Checking.mk 2 1 3; Checking.mk 3 1 2])
      [] (InternalServerError OverflowError).
Proof. vm_compute. reflexivity. Qed.



Lemma toggle_unknown_habit_witness :
  let out := toggle (H:=reference) 738886 (toggle_json 99 "2024-01-01") db_example in
  reply out
  = Jsonify 200 (JDict [("ok", JBool true); ("checked", JBool true);
                        ("streak", JInt 1)]) ∧
  get_habit (db_after out) 99 = None ∧
  checking (db_after out) = checking db_example ++ [Checking.mk 4 99 738886].
Proof.
  assert (toggle_payload (H:=reference) (toggle_json 99 "2024-01-01")
          = Some (99%Z, 738886%positive)) as Hp by (vm_compute; reflexivity).
  assert (get_habit db_example 99 = None) as Hnone by (vm_compute; reflexivity).
  assert (int64 99) as Hrange by (unfold int64, int64_min, int64_max; lia).
  assert (¬ checked_on db_example 99 1) as Hgap by compute_done.
  assert (¬ checked_on db_example 99 738886) as Hunchecked by compute_done.
  destruct (toggle_unknown_habit (H:=reference) 738886 _ _ _ _ Hp Hnone)
    as (_ & _ & _ & Hget & Hin).
  destruct (Hin Hrange) as (Hoff & _ & Hreply).
  destruct (Hreply 1%positive ltac:(lia) ltac:(lia) Hgap) as (streak & Hs & Hr).
  intros out.
  assert (streak = 1) as ->.
  { vm_compute in Hs. by injection Hs. }
  split; [exact Hr |]. split; [exact Hget |]. exact (Hoff Hunchecked).
Defined.

(** C9 as stated fails once such a toggle has happened: the same payload,
    sent again, finds the checking the first request inserted, deletes it and
    answers [checked: false].  It fails as well for the id 2^63, which is the
    id of no habit and which SQLite cannot hold: the request ends in a 500. *)
Lemma toggle_unknown_habit_twice :
  let r := toggle_json 99 "2024-01-01" in
  let db1 := db_after (toggle (H:=reference) 738886 r (mkDB [] [])) in
  toggle_payload (H:=reference) r = Some (99%Z, 738886%positive) ∧
  get_habit db1 99 = None ∧
  checking db1 = [Checking.mk 1 99 738886] ∧
  toggle (H:=reference) 738886 r db1
  = mkOutcome (mkDB [] []) []
      (Jsonify 200 (JDict [("ok", JBool true); ("checked", JBool false);
                           ("streak", JInt 0)])) ∧
  get_habit (mkDB [] []) 9223372036854775808 = None ∧
  toggle (H:=reference) 738886 (toggle_json 9223372036854775808 "2024-01-01")
    (mkDB [] [])
  = mkOutcome (mkDB [] []) [] (InternalServerError OverflowError).
Proof. vm_compute. repeat split; reflexivity. Qed.

(** ** Form and JSON bodies *)

Lemma dict_get_fields_json (fields : list (string * string)) (key : string) :
  dict_get (prod_map id JStr <$> fields) key = JStr <$> dict_get fields key.
Proof.
  induction fields as [|[k v] fields IH]; [done |].
  simpl. by destruct (decide (k = key)).
Qed.

Lemma data_get_fields_json (fields : list (string * string)) (xrw : option string)
    (key : string) :
  data_get (request_data (mkRequest (JsonBody (Some (fields_json fields))) xrw)) key
  = data_get (request_data (mkRequest (FormBody fields) xrw)) key.
Proof.
  unfold request_data, fields_json. simpl.
  destruct fields as [|[k v] fields]; [done |].
  simpl. rewrite dict_get_fields_json.
  destruct (decide (k = key)); [done |]. by destruct (dict_get fields key).
Qed.

(** X24.  [toggle] reads its payload from either body: the same fields sent
    as a form or as a JSON object have the same effect and the same reply. *)
Lemma toggle_json_as_form `{Builtins} (today : date) (fields : list (string * string))
    (xrw : option string) (db : DB) :
  toggle today (mkRequest (JsonBody (Some (fields_json fields))) xrw) db
  = toggle today (mkRequest (FormBody fields) xrw) db.
Proof.
  unfold toggle, toggle_payload. by rewrite !data_get_fields_json.
Qed.

(** [create_habit] and [edit_habit] read [request.form] only: whatever a
    JSON body carries, they find no name. *)
Lemma create_habit_json_body (now : Z) (j : option json) (xrw : option string) (db : DB) :
  create_habit now (mkRequest (JsonBody j) xrw) db
  = mkOutcome db [("Name is required", "error")] (Redirect "habits_page").
Proof. reflexivity. Qed.

Lemma edit_habit_json_body (habit_id : Z) (j : option json) (xrw : option string)
    (db : DB) (h : Habit.t) :
  get_habit db habit_id = Some h →
  edit_habit habit_id (mkRequest (JsonBody j) xrw) db
  = mkOutcome db [] (Jsonify 400 (json_error "Name required")).
Proof. intros Hget. unfold edit_habit. by rewrite (get_or_404_Some _ _ _ Hget). Qed.

(** C4 at a failing input.  The fields name=Walk, color=#00ff00 create the
    habit when they are sent as a form, and are answered with "Name is
    required", nothing created, when they are sent as a JSON object; the same
    holds for an edit, while [toggle] accepts both. *)
Theorem create_habit_json_not_read :
  let fields := [("name", "Walk"); ("color", "#00ff00")] in
  create_habit 9 (form_request fields) db_example
  = mkOutcome (mkDB (habit db_example ++ [Habit.mk 3 "Walk" "#00ff00" "daily" 1 9])
                    (checking db_example))
              [("Habit created", "success")] (Redirect "habits_page") ∧
  create_habit 9 (json_request (fields_json fields)) db_example
  = mkOutcome db_example [("Name is required", "error")] (Redirect "habits_page") ∧
  reply (edit_habit 2 (form_request fields) db_example)
  = Jsonify 200 (json_habit (Habit.mk 2 "Walk" "#00ff00" "daily" 1 5)) ∧
  edit_habit 2 (json_request (fields_json fields)) db_example
  = mkOutcome db_example [] (Jsonify 400 (json_error "Name required")).
Proof. vm_compute. repeat split; reflexivity. Qed.

(** ** The constraints hold in every state the handlers reach *)

Lemma NoDup_snoc {A} (l : list A) (x : A) : NoDup l → x ∉ l → NoDup (l ++ [x]).
Proof.
  intros Hnd Hx. apply NoDup_app. split; [done |]. split; [| apply NoDup_singleton].
  intros y Hy ->%list_elem_of_singleton. done.
Qed.

Lemma constraints_empty : constraints (mkDB [] []).
Proof. repeat split; constructor. Qed.

Lemma create_habit_constraints (now : Z) (r : request) (db : DB) :
  constraints db → constraints (db_after (create_habit now r db)).
Proof.
  intros Hc. unfold create_habit.
  destruct (decide (form_name r = "")); [done |].
  unfold insert_habit. case_decide; [done |].
  destruct Hc as (Hids & Hnames & Hcids & Hkeys). simpl.
  repeat split; simpl; try done; rewrite fmap_app; apply NoDup_snoc; try done.
  apply next_id_fresh.
Qed.

Lemma edit_habit_constraints (habit_id : Z) (r : request) (db : DB) :
  constraints db → constraints (db_after (edit_habit habit_id r db)).
Proof.
  intros Hc. unfold edit_habit, get_or_404.
  destruct (get_habit db habit_id) as [h|] eqn:Hget; [| by case_decide].
  apply get_habit_Some in Hget as [_ Hid]. rewrite Hid.
  destruct (decide (form_name r = "")); [done |].
  unfold update_habit. case_decide as Hclash; [done |].
  destruct Hc as (Hids & Hnames & Hcids & Hkeys).
  repeat split; simpl; try done.
  - rewrite <- list_fmap_compose.
    erewrite list_fmap_ext; [exact Hids |].
    intros i x _. simpl. by case_decide.
  - rewrite <- list_fmap_compose. apply NoDup_fmap_2_strong; [| by apply NoDup_fmap_1 in Hids].
    intros x y Hx Hy. simpl.
    destruct (decide (Habit.id x = habit_id)) as [Hxid|Hxid],
             (decide (Habit.id y = habit_id)) as [Hyid|Hyid]; simpl; intros Heq.
    + apply (NoDup_fmap_eq Habit.id (habit db)); congruence.
    + exfalso. apply Hclash, Exists_exists. exists y. done.
    + exfalso. apply Hclash, Exists_exists. exists x. done.
    + by apply (NoDup_fmap_eq Habit.name (habit db)).
Qed.

Lemma delete_habit_constraints (habit_id : Z) (r : request) (db : DB) :
  constraints db → constraints (db_after (delete_habit habit_id r db)).
Proof.
  intros Hc. unfold delete_habit, get_or_404.
  destruct (get_habit db habit_id); [| by case_decide].
  destruct Hc as (Hids & Hnames & Hcids & Hkeys).
  repeat split; simpl; by apply NoDup_fmap_filter.
Qed.

Lemma toggle_constraints `{Builtins} (today : date) (r : request) (db : DB) :
  constraints db → constraints (db_after (toggle today r db)).
Proof.
  intros Hc. unfold toggle. destruct (toggle_payload r) as [[hid d]|]; [| done].
  case_decide; [| done].
  destruct (decide (checked_on db hid d)) as [Hon|Hoff].
  - destruct (toggle_commit_checked db hid d Hon) as (c & _ & _ & ->).
    destruct Hc as (Hids & Hnames & Hcids & Hkeys).
    repeat split; simpl; try done; by apply NoDup_fmap_filter.
  - rewrite (toggle_commit_unchecked db hid d Hoff).
    destruct Hc as (Hids & Hnames & Hcids & Hkeys).
    repeat split; simpl; try done; rewrite fmap_app; apply NoDup_snoc; try done.
    apply next_id_fresh.
Qed.

(** * Further properties *)

(** ** The streak, read off the calendar *)

Lemma get_streak_step (D : gset date) (p : date) :
  get_streak_from_dates D (Pos.succ p) =
    if decide (Pos.succ p ∈ D) then S <$> get_streak_from_dates D p else Ok 0.
Proof.
  unfold get_streak_from_dates. rewrite streak_loop_step, date_sub_one_succ.
  destruct (decide (Pos.succ p ∈ D)); [| done].
  rewrite streak_loop_acc. by destruct (streak_loop D 0 p).
Qed.

Lemma get_streak_min (D : gset date) :
  get_streak_from_dates D 1 =
    if decide (1%positive ∈ D) then Raise OverflowError else Ok 0.
Proof. unfold get_streak_from_dates. by rewrite streak_loop_step. Qed.

Lemma days_ago_succ (p : date) (k : nat) :
  (Z.of_nat k < Z.pos p)%Z →
  days_ago (Pos.succ p) (Z.of_nat (S k)) = days_ago p (Z.of_nat k).
Proof. intros Hk. unfold days_ago. lia. Qed.

Lemma days_ago_zero (T : date) : days_ago T (Z.of_nat 0) = T.
Proof. unfold days_ago. lia. Qed.

(** X1.  The streak is [n] exactly when the [n] days that end at the
    reference date are completion dates and the day before them exists and
    is none. *)
Theorem streak_is_trailing_run (D : gset date) (T : date) (n : nat) :
  get_streak_from_dates D T = Ok n ↔
    (Z.of_nat n < Z.pos T)%Z ∧
    (∀ k : nat, k < n → days_ago T (Z.of_nat k) ∈ D) ∧
    days_ago T (Z.of_nat n) ∉ D.
Proof.
  revert n. induction T as [|p IH] using Pos.peano_ind; intros n.
  - rewrite get_streak_min. destruct (decide (1%positive ∈ D)) as [Hin|Hout].
    + split; [discriminate |]. intros (Hn & _ & Hgap).
      assert (n = 0) as -> by lia. by rewrite days_ago_zero in Hgap.
    + split.
      * intros [= <-]. rewrite days_ago_zero. split; [lia |]. split; [lia | done].
      * intros (Hn & _ & _). f_equal. lia.
  - rewrite get_streak_step. destruct (decide (Pos.succ p ∈ D)) as [Hin|Hout].
    + destruct n as [|m].
      * split.
        -- destruct (get_streak_from_dates D p); discriminate.
        -- intros (_ & _ & Hgap). by rewrite days_ago_zero in Hgap.
      * specialize (IH m). split.
        -- intros Hs. destruct (get_streak_from_dates D p) as [m'|] eqn:Hp; [| discriminate].
           injection Hs as ->. destruct (proj1 IH eq_refl) as (Hm & Hrun & Hgap).
           split; [lia |]. split.
           ++ intros [|k] Hk; [by rewrite days_ago_zero |].
              rewrite days_ago_succ by lia. apply Hrun. lia.
           ++ by rewrite days_ago_succ.
        -- intros (Hm & Hrun & Hgap).
           assert (Z.of_nat m < Z.pos p)%Z as Hm' by lia.
           rewrite (proj2 IH); [done |]. split; [done |]. split.
           ++ intros k Hk. rewrite <- days_ago_succ by lia. apply Hrun. lia.
           ++ by rewrite <- days_ago_succ.
    + split.
      * intros [= <-]. rewrite days_ago_zero. split; [lia |]. split; [lia | done].
      * intros (_ & Hrun & _). destruct n as [|m]; [done |].
        exfalso. apply Hout. rewrite <- (days_ago_zero (Pos.succ p)). apply Hrun. lia.
Qed.

(** X2.  The streak walk raises [OverflowError] exactly when every day from
    [date.min] to the reference date is a completion date. *)
Theorem streak_raises_iff_full (D : gset date) (T : date) :
  get_streak_from_dates D T = Raise OverflowError ↔
    ∀ p : date, (p ≤ T)%positive → p ∈ D.
Proof.
  split.
  - intros Hraise p Hp. destruct (decide (p ∈ D)) as [|Hout]; [done |].
    destruct (streak_returns D T p Hp Hout) as [n Hn]. congruence.
  - induction T as [|p IH] using Pos.peano_ind; intros Hfull.
    + rewrite get_streak_min. rewrite decide_True; [done |]. apply Hfull. lia.
    + rewrite get_streak_step. rewrite decide_True by (apply Hfull; lia).
      rewrite IH; [done |]. intros q Hq. apply Hfull. lia.
Qed.

(** X3.  Completion dates after the reference date do not count. *)
Theorem streak_ignores_later_dates (D F : gset date) (T : date) :
  (∀ f, f ∈ F → (T < f)%positive) →
  get_streak_from_dates (D ∪ F) T = get_streak_from_dates D T.
Proof.
  intros Hlater. unfold get_streak_from_dates. apply streak_loop_ext.
  intros p Hp. rewrite elem_of_union. split; [| by left].
  intros [Hin|Hin]; [done |]. apply Hlater in Hin. lia.
Qed.

Lemma streak_ignores_later_dates_witness :
  get_streak_from_dates ({[738886; 738885]} ∪ {[738887; 738890]})%positive 738886%positive
  = get_streak_from_dates {[738886; 738885]}%positive 738886%positive.
Proof.
  apply streak_ignores_later_dates.
  intros f Hf. apply elem_of_union in Hf as [Hf|Hf];
    apply elem_of_singleton in Hf; subst f; reflexivity.
Defined.

(** ** The weekly series *)

Lemma window_list_facts (today : date) (N : Z) :
  (1 ≤ N ≤ Z.pos today)%Z →
  window today N = Ok (window_list today N) ∧
  index (window_list today N) 0 = Ok (days_ago today (N - 1)) ∧
  length (window_list today N) = Z.to_nat N ∧
  (∀ day, day ∈ window_list today N → (days_ago today (N - 1) ≤ day)%positive).
Proof.
  intros HN.
  destruct (window_days today N HN) as (days & Hw & Hlen & _ & H0 & _ & Hmin).
  assert (days = window_list today N) as ->.
  { rewrite window_Ok in Hw by lia. by injection Hw. }
  done.
Qed.

Lemma for_habit_series (db : DB) (today : date) (hid N : Z) :
  (1 ≤ N ≤ Z.pos today)%Z →
  get_weekly_data_for_habit db today hid N =
    Ok (strftime_a <$> window_list today N,
        (λ day, if decide (checked_on db hid day) then 1 else 0)%Z
          <$> window_list today N).
Proof.
  intros HN. destruct (window_list_facts today N HN) as (Hw & H0 & _ & Hmin).
  unfold get_weekly_data_for_habit. rewrite Hw. simpl. rewrite H0. simpl.
  do 2 f_equal. apply list_fmap_ext. intros i day Hday.
  apply list_elem_of_lookup_2, Hmin in Hday.
  apply decide_ext. by apply checking_dates_spec.
Qed.

Lemma all_habits_series (db : DB) (today : date) (N : Z) :
  (1 ≤ N ≤ Z.pos today)%Z →
  get_weekly_data_all_habits db today N =
    Ok (strftime_a <$> window_list today N,
        (λ day, Z.of_nat (length (filter (λ c, Checking.date c = day) (checking db))))
          <$> window_list today N).
Proof.
  intros HN. destruct (window_list_facts today N HN) as (Hw & H0 & _ & Hmin).
  unfold get_weekly_data_all_habits. rewrite Hw. simpl. rewrite H0. simpl.
  do 2 f_equal. apply list_fmap_ext. intros i day Hday.
  apply list_elem_of_lookup_2, Hmin in Hday.
  rewrite daily_counts_lookup, lookup_empty. simpl.
  by rewrite list_filter_filter_l by (intros c ->; done).
Qed.

(** X4.  [get_weekly_data_all_habits] returns a series, of [N] labels and [N]
    values, exactly for [1 ≤ N ≤ today.toordinal()]; a window size of 0 or
    less ends in [IndexError] at [days[0]], a window that starts before
    [date.min] in [OverflowError]. *)
Theorem weekly_all_habits_domain (db : DB) (today : date) (N : Z) :
  ((1 ≤ N ≤ Z.pos today)%Z →
   ∃ labels data,
     get_weekly_data_all_habits db today N = Ok (labels, data) ∧
     length labels = Z.to_nat N ∧ length data = Z.to_nat N) ∧
  ((N ≤ 0)%Z → get_weekly_data_all_habits db today N = Raise IndexError) ∧
  ((Z.pos today < N)%Z → get_weekly_data_all_habits db today N = Raise OverflowError).
Proof.
  split; [| apply get_weekly_data_all_habits_raises].
  intros HN. rewrite all_habits_series by done.
  destruct (window_list_facts today N HN) as (_ & _ & Hlen & _).
  do 2 eexists. split; [done |]. by rewrite !length_fmap.
Qed.

Lemma count_as_sum {A} (P : A → Prop) `{!∀ x, Decision (P x)} (l : list A) :
  Z.of_nat (length (filter P l))
  = foldr Z.add 0%Z ((λ x, if decide (P x) then 1 else 0)%Z <$> l).
Proof.
  induction l as [|a l IH]; [done |]. rewrite fmap_cons. simpl foldr.
  rewrite <- IH. destruct (decide (P a)).
  - rewrite filter_cons_True by done. simpl length. lia.
  - rewrite filter_cons_False by done. lia.
Qed.

(** X5.  When the constraints hold and every checking belongs to a habit of
    the table, the combined weekly series is the sum of the per-habit series:
    its value for a day is the sum over the habits of their values for that
    day. *)
Theorem weekly_all_is_sum_of_habits (db : DB) (today : date) (N : Z) :
  constraints db →
  owned db →
  (1 ≤ N ≤ Z.pos today)%Z →
  ∃ labels data,
    get_weekly_data_all_habits db today N = Ok (labels, data) ∧
    ∀ i, i < Z.to_nat N →
      data !! i = Some (foldr Z.add 0%Z ((λ h, habit_value db today N h i) <$> habit db)).
Proof.
  intros (Hids & _ & _ & Hkeys) Howned HN.
  rewrite all_habits_series by done. do 2 eexists. split; [done |].
  intros i Hi. destruct (window_list_facts today N HN) as (_ & _ & Hlen & _).
  destruct (lookup_lt_is_Some_2 (window_list today N) i) as [day Hday]; [lia |].
  rewrite list_lookup_fmap, Hday. simpl. f_equal.
  rewrite rows_on_day_distinct_habits, <- habit_rows_count by done.
  unfold habit_rows_checked_on. rewrite count_as_sum. f_equal.
  apply list_fmap_ext. intros j h _. unfold habit_value.
  rewrite for_habit_series by done. by rewrite list_lookup_fmap, Hday.
Qed.

Lemma weekly_all_is_sum_of_habits_witness :
  ∃ labels data,
    get_weekly_data_all_habits db_example 738886 7 = Ok (labels, data) ∧
    ∀ i, i < Z.to_nat 7 →
      data !! i = Some (foldr Z.add 0%Z
                          ((λ h, habit_value db_example 738886 7 h i) <$> habit db_example)).
Proof.
  apply weekly_all_is_sum_of_habits; [| | lia].
  - repeat split; compute_done.
  - intros c Hc. repeat (apply elem_of_cons in Hc as [->|Hc]; [compute_done |]).
    by apply elem_of_nil in Hc.
Defined.





(** ** Names *)

Lemma lstrip_all_space (s : string) : all_space s = true → lstrip s = "".
Proof.
  induction s as [|c s IH]; [done |]. simpl.
  intros [Hc Hs]%andb_true_iff. rewrite Hc. by apply IH.
Qed.

Lemma lstrip_empty (s : string) : lstrip s = "" → all_space s = true.
Proof.
  induction s as [|c s IH]; [done |]. simpl.
  destruct (is_space c); [exact IH | discriminate].
Qed.

Lemma rstrip_empty (s : string) : rstrip s = "" → all_space s = true.
Proof.
  induction s as [|c s IH]; [done |]. simpl.
  destruct (rstrip s) as [|c' r]; [| discriminate].
  destruct (is_space c); [| discriminate]. intros _. by apply IH.
Qed.

Lemma lstrip_keeps_all_space (s : string) :
  all_space (lstrip s) = true → all_space s = true.
Proof.
  induction s as [|c s IH]; [done |]. simpl.
  destruct (is_space c) eqn:Hc; [exact IH |]. simpl. by rewrite Hc.
Qed.

Lemma strip_empty_iff (s : string) : strip s = "" ↔ all_space s = true.
Proof.
  unfold strip. split.
  - intros Hs. by apply lstrip_keeps_all_space, rstrip_empty.
  - intros Hs. by rewrite lstrip_all_space.
Qed.

Lemma rstrip_idempotent (s : string) : rstrip (rstrip s) = rstrip s.
Proof.
  induction s as [|c s IH]; [done |]. simpl.
  destruct (rstrip s) as [|c' r] eqn:Hr.
  - destruct (is_space c) eqn:Hc; [done |]. simpl. by rewrite Hc.
  - change (rstrip (String c (String c' r)))
      with (match rstrip (String c' r) with
            | EmptyString => if is_space c then EmptyString else String c EmptyString
            | r' => String c r'
            end).
    by rewrite IH.
Qed.

Lemma lstrip_rstrip_lstrip (s : string) : lstrip (rstrip (lstrip s)) = rstrip (lstrip s).
Proof.
  induction s as [|c s IH]; [done |]. simpl.
  destruct (is_space c) eqn:Hc; [exact IH |].
  simpl. destruct (rstrip s); rewrite ?Hc; simpl; by rewrite ?Hc.
Qed.

Lemma strip_idempotent (s : string) : strip (strip s) = strip s.
Proof. unfold strip. by rewrite lstrip_rstrip_lstrip, rstrip_idempotent. Qed.

Lemma form_name_clean (r : request) : form_name r ≠ "" → clean_name (form_name r).
Proof. intros Hne. split; [done |]. apply strip_idempotent. Qed.

(** X7.  [create_habit] answers "Name is required" exactly when the name
    field is missing or blank (which is always the case for a body that is
    not form-encoded); it then changes nothing and redirects, also a client
    that asked for JSON. *)
Theorem create_habit_name_required (now : Z) (r : request) (db : DB) :
  (flashed (create_habit now r db) = [("Name is required", "error")]
   ↔ all_space (default "" (dict_get (form r) "name")) = true) ∧
  (all_space (default "" (dict_get (form r) "name")) = true →
   create_habit now r db
   = mkOutcome db [("Name is required", "error")] (Redirect "habits_page")).
Proof.
  assert (form_name r = "" ↔ all_space (default "" (dict_get (form r) "name")) = true)
    as Hblank by apply strip_empty_iff.
  unfold create_habit. destruct (decide (form_name r = "")) as [Hname|Hname].
  - split; [| done]. simpl. split; [intros _; by apply Hblank | done].
  - split.
    + split; [| intros Hb; by apply Hblank in Hb].
      destruct (insert_habit _ _ _ _) as [[h db']|[]]; simpl; discriminate.
    + intros Hb. by apply Hblank in Hb.
Qed.

Lemma create_habit_name_required_witness :
  create_habit 9 (ajax_request [("name", "   "); ("color", "#00ff00")]) db_example
  = mkOutcome db_example [("Name is required", "error")] (Redirect "habits_page").
Proof.
  apply (proj2 (create_habit_name_required 9
                  (ajax_request [("name", "   "); ("color", "#00ff00")]) db_example)).
  reflexivity.
Defined.

Lemma get_habit_app_new (db : DB) (h : Habit.t) (rows : list Checking.t) :
  Habit.id h ∉ Habit.id <$> habit db →
  get_habit (mkDB (habit db ++ [h]) rows) (Habit.id h) = Some h.
Proof.
  intros Hfresh. unfold get_habit. simpl.
  assert (list_find (λ h', Habit.id h' = Habit.id h) (habit db ++ [h])
          = Some (length (habit db), h)) as ->; [| done].
  apply list_find_Some. split; [| split; [done |]].
  - by rewrite lookup_app_r, Nat.sub_diag by lia.
  - intros j y Hj Hlt Hid. rewrite lookup_app_l in Hj by done.
    apply Hfresh. rewrite <- Hid. eapply list_elem_of_fmap_2, list_elem_of_lookup_2, Hj.
Qed.

(** X8.  A create request with a name that is not blank and not yet in the
    table appends exactly one habit: its id is larger than every id in the
    table, its name and color are the stripped fields, goal_type, target_per_day
    and created_at take their defaults; the checkings stay, a client that asked
    for JSON gets the new row back, and the habit is found under its id. *)
Theorem create_habit_adds_one (now : Z) (r : request) (db : DB) :
  form_name r ≠ "" →
  form_name r ∉ Habit.name <$> habit db →
  let h := Habit.mk (next_id (Habit.id <$> habit db)) (form_name r) (form_color r)
                    "daily" 1 now in
  create_habit now r db
  = mkOutcome (mkDB (habit db ++ [h]) (checking db)) [("Habit created", "success")]
      (if wants_json r then Jsonify 200 (json_habit h) else Redirect "habits_page") ∧
  (∀ h', h' ∈ habit db → (Habit.id h' < Habit.id h)%Z) ∧
  get_habit (db_after (create_habit now r db)) (Habit.id h) = Some h.
Proof.
  intros Hname Hfresh h.
  assert (create_habit now r db
          = mkOutcome (mkDB (habit db ++ [h]) (checking db)) [("Habit created", "success")]
              (if wants_json r then Jsonify 200 (json_habit h) else Redirect "habits_page"))
    as Hout.
  { unfold create_habit. rewrite decide_False by done.
    unfold insert_habit. by rewrite decide_False. }
  split; [done |]. split.
  - intros h' Hh'. apply next_id_above. by apply list_elem_of_fmap_2.
  - rewrite Hout. apply get_habit_app_new. apply next_id_fresh.
Qed.

Lemma create_habit_adds_one_witness :
  create_habit 9 (ajax_request [("name", " Walk "); ("color", "#00ff00")]) db_example
  = mkOutcome (mkDB [habit_read; habit_run; Habit.mk 3 "Walk" "#00ff00" "daily" 1 9]
                    (checking db_example))
      [("Habit created", "success")]
      (Jsonify 200 (json_habit (Habit.mk 3 "Walk" "#00ff00" "daily" 1 9))).
Proof.
  apply (create_habit_adds_one 9
           (ajax_request [("name", " Walk "); ("color", "#00ff00")]) db_example).
  - discriminate.
  - compute_done.
Defined.

(** ** What every reachable database satisfies *)

Lemma create_habit_names_clean (now : Z) (r : request) (db : DB) :
  names_clean db → names_clean (db_after (create_habit now r db)).
Proof.
  intros Hc. unfold create_habit.
  destruct (decide (form_name r = "")) as [|Hname]; [done |].
  unfold insert_habit. case_decide; [done |]. simpl.
  intros h [Hh| ->%list_elem_of_singleton]%elem_of_app; [by apply Hc |].
  by apply form_name_clean.
Qed.

Lemma edit_habit_names_clean (habit_id : Z) (r : request) (db : DB) :
  names_clean db → names_clean (db_after (edit_habit habit_id r db)).
Proof.
  intros Hc. unfold edit_habit, get_or_404.
  destruct (get_habit db habit_id); [| by case_decide].
  destruct (decide (form_name r = "")) as [|Hname]; [done |].
  unfold update_habit. case_decide; [done |]. simpl.
  intros h' (h & -> & Hh)%list_elem_of_fmap.
  case_decide; [by apply form_name_clean | by apply Hc].
Qed.

Lemma delete_habit_names_clean (habit_id : Z) (r : request) (db : DB) :
  names_clean db → names_clean (db_after (delete_habit habit_id r db)).
Proof.
  intros Hc. unfold delete_habit, get_or_404.
  destruct (get_habit db habit_id); [| by case_decide].
  simpl. intros h [_ Hh]%list_elem_of_filter. by apply Hc.
Qed.

Lemma toggle_keeps_habits `{Builtins} (today : date) (r : request) (db : DB) :
  habit (db_after (toggle today r db)) = habit db.
Proof.
  unfold toggle. destruct (toggle_payload r) as [[hid d]|]; [| done].
  case_decide; [| done].
  destruct (decide (checked_on db hid d)) as [Hon|Hoff].
  - by destruct (toggle_commit_checked db hid d Hon) as (c & _ & _ & ->).
  - by rewrite (toggle_commit_unchecked db hid d Hoff).
Qed.

(** X9.  Whatever requests were served since the tables were created, the
    database satisfies the constraints of the schema, and no stored habit
    name is empty or has a blank at either end. *)
Theorem served_database_is_sound `{Builtins} (calls : list call) :
  constraints (serve calls (mkDB [] [])) ∧ names_clean (serve calls (mkDB [] [])).
Proof.
  assert (∀ db, constraints db → names_clean db →
                constraints (serve calls db) ∧ names_clean (serve calls db)) as Hinv.
  { induction calls as [|c calls IH]; intros db Hc Hn; [done |].
    apply IH; destruct c; simpl.
    - by apply create_habit_constraints.
    - by apply edit_habit_constraints.
    - by apply delete_habit_constraints.
    - by apply toggle_constraints.
    - by apply create_habit_names_clean.
    - by apply edit_habit_names_clean.
    - by apply delete_habit_names_clean.
    - unfold names_clean. by rewrite toggle_keeps_habits. }
  apply Hinv; [apply constraints_empty |].
  intros h Hh. by apply elem_of_nil in Hh.
Qed.

(** ** Editing and deleting *)

Lemma get_habit_unique (db : DB) (h : Habit.t) :
  NoDup (Habit.id <$> habit db) → h ∈ habit db → get_habit db (Habit.id h) = Some h.
Proof.
  intros Hids Hh. destruct (get_habit_elem_of db h Hh) as [h' Hget].
  rewrite Hget. f_equal. apply get_habit_Some in Hget as [Hh' Hid].
  by apply (NoDup_fmap_eq Habit.id (habit db)).
Qed.

(** X10.  An edit that would give the habit the name of another habit is
    answered 400 with the error [unique]; the database stays as it was and
    nothing is flashed. *)
Theorem edit_habit_duplicate (habit_id : Z) (r : request) (db : DB) (other : Habit.t) :
  habit_id ∈ Habit.id <$> habit db →
  other ∈ habit db →
  Habit.id other ≠ habit_id →
  Habit.name other = form_name r →
  form_name r ≠ "" →
  edit_habit habit_id r db = mkOutcome db [] (Jsonify 400 (json_error "unique")).
Proof.
  intros Hid Hother Hne Hname Hblank. unfold edit_habit, get_or_404.
  destruct (get_habit db habit_id) as [h|] eqn:Hget.
  2:{ by apply get_habit_None in Hget. }
  apply get_habit_Some in Hget as [_ ->].
  rewrite decide_False by done. unfold update_habit.
  rewrite decide_True; [done |]. apply Exists_exists. by exists other.
Qed.

Lemma edit_habit_duplicate_witness :
  edit_habit 2 (form_request [("name", "Read")]) db_example
  = mkOutcome db_example [] (Jsonify 400 (json_error "unique")).
Proof.
  apply (edit_habit_duplicate 2 (form_request [("name", "Read")]) db_example habit_read).
  - compute_done.
  - apply list_elem_of_here.
  - discriminate.
  - reflexivity.
  - discriminate.
Defined.

(** X11.  In a database that satisfies the constraints a habit can be saved
    under the name it already has: the edit succeeds, the row keeps its place
    and takes the color of the request, every other row and the checkings
    stay. *)
Theorem edit_habit_same_name (r : request) (db : DB) (h : Habit.t) :
  constraints db →
  h ∈ habit db →
  form_name r = Habit.name h →
  Habit.name h ≠ "" →
  edit_habit (Habit.id h) r db
  = mkOutcome
      (mkDB ((λ h', if decide (Habit.id h' = Habit.id h)
                    then set_name_color (Habit.name h) (form_color r) h' else h')
               <$> habit db)
            (checking db))
      [("Habit updated", "success")]
      (Jsonify 200 (json_habit (set_name_color (Habit.name h) (form_color r) h))) ∧
  ∀ i h', habit db !! i = Some h' → h' ≠ h →
          habit (db_after (edit_habit (Habit.id h) r db)) !! i = Some h'.
Proof.
  intros (Hids & Hnames & _) Hh Hname Hblank.
  assert (edit_habit (Habit.id h) r db
          = mkOutcome
              (mkDB ((λ h', if decide (Habit.id h' = Habit.id h)
                            then set_name_color (Habit.name h) (form_color r) h' else h')
                       <$> habit db)
                    (checking db))
              [("Habit updated", "success")]
              (Jsonify 200 (json_habit (set_name_color (Habit.name h) (form_color r) h))))
    as Hout.
  { unfold edit_habit, get_or_404. rewrite (get_habit_unique db h Hids Hh), Hname.
    rewrite decide_False by done. unfold update_habit.
    rewrite decide_False; [done |].
    intros (h' & Hh' & Hid & Hn)%Exists_exists. apply Hid. f_equal.
    by apply (NoDup_fmap_eq Habit.name (habit db)). }
  split; [done |]. rewrite Hout. simpl. intros i h' Hi Hne.
  rewrite list_lookup_fmap, Hi. simpl. rewrite decide_False; [done |].
  intros Hid. apply Hne. apply (NoDup_fmap_eq Habit.id (habit db)); try done.
  by eapply list_elem_of_lookup_2.
Qed.

Lemma edit_habit_same_name_witness :
  edit_habit 2 (form_request [("name", "Run"); ("color", "#123456")]) db_example
  = mkOutcome (mkDB [habit_read; Habit.mk 2 "Run" "#123456" "daily" 1 5]
                    (checking db_example))
      [("Habit updated", "success")]
      (Jsonify 200 (json_habit (Habit.mk 2 "Run" "#123456" "daily" 1 5))).
Proof.
  apply (edit_habit_same_name (form_request [("name", "Run"); ("color", "#123456")])
           db_example habit_run).
  - repeat split; compute_done.
  - apply list_elem_of_further, list_elem_of_here.
  - reflexivity.
  - discriminate.
Defined.

(** X12.  For an id that no habit has, [edit_habit], [delete_habit] and
    [habit_analytics_json] answer not-found when the id is at most 2^63 - 1,
    and end in the 500 of an [OverflowError] when it is larger; either way
    the two that write leave the database as it was and flash nothing,
    whatever the request carries. *)
Theorem unknown_habit_rejected (today : date) (habit_id : Z) (r : request) (db : DB) :
  habit_id ∉ Habit.id <$> habit db →
  let answer :=
    if decide (habit_id ≤ int64_max)%Z then NotFound
    else InternalServerError OverflowError in
  edit_habit habit_id r db = mkOutcome db [] answer ∧
  delete_habit habit_id r db = mkOutcome db [] answer ∧
  habit_analytics_json today habit_id db = answer.
Proof.
  intros Hnone%get_habit_None answer. subst answer.
  unfold edit_habit, delete_habit, habit_analytics_json.
  rewrite (get_or_404_None _ _ Hnone). by case_decide.
Qed.

Lemma unknown_habit_rejected_witness :
  edit_habit 7 (form_request [("name", "Swim")]) db_example
  = mkOutcome db_example [] NotFound ∧
  delete_habit 7 (form_request [("name", "Swim")]) db_example
  = mkOutcome db_example [] NotFound ∧
  habit_analytics_json 738886 7 db_example = NotFound.
Proof.
  apply (unknown_habit_rejected 738886 7 (form_request [("name", "Swim")]) db_example).
  compute_done.
Defined.

(** The id 2^63 of the routes [/habits/9223372036854775808/...]. *)
Example unknown_habit_too_large :
  edit_habit 9223372036854775808 (form_request [("name", "Swim")]) db_example
  = mkOutcome db_example [] (InternalServerError OverflowError) ∧
  delete_habit 9223372036854775808 (form_request []) db_example
  = mkOutcome db_example [] (InternalServerError OverflowError) ∧
  habit_analytics_json 738886 9223372036854775808 db_example
  = InternalServerError OverflowError.
Proof. vm_compute. repeat split; reflexivity. Qed.

Lemma find_in_filter {A} (P Q : A → Prop)
    `{!∀ x, Decision (P x), !∀ x, Decision (Q x)} (l : list A) :
  (∀ x, P x → Q x) →
  snd <$> list_find P (filter Q l) = snd <$> list_find P l.
Proof.
  intros HPQ. induction l as [|a l IH]; [done |].
  destruct (decide (Q a)) as [HQ|HQ].
  - rewrite filter_cons_True by done. simpl.
    destruct (decide (P a)); [done |].
    rewrite <- !option_fmap_compose. exact IH.
  - rewrite filter_cons_False by done. simpl.
    rewrite decide_False by (intros HP; by apply HQ, HPQ).
    rewrite <- !option_fmap_compose. exact IH.
Qed.

(** X13.  In a database that satisfies the constraints, deleting a habit
    removes exactly that row: the table is one row shorter, every other habit
    is still found under its id, and the checkings of the other habits are
    the ones they had. *)
Theorem delete_habit_frame (r : request) (db : DB) (h : Habit.t) :
  constraints db →
  h ∈ habit db →
  let db' := db_after (delete_habit (Habit.id h) r db) in
  S (length (habit db')) = length (habit db) ∧
  habit db' = filter (λ h', h' ≠ h) (habit db) ∧
  (∀ hid, hid ≠ Habit.id h → get_habit db' hid = get_habit db hid) ∧
  (∀ hid day, hid ≠ Habit.id h → checked_on db' hid day ↔ checked_on db hid day).
Proof.
  intros (Hids & _) Hh db'.
  assert (db' = delete_habit_row h db) as ->.
  { unfold db', delete_habit, get_or_404. by rewrite (get_habit_unique db h Hids Hh). }
  assert (habit (delete_habit_row h db) = filter (λ h', h' ≠ h) (habit db)) as Hrows.
  { simpl. apply filter_ext_elem_of. intros h' Hh'. split; [congruence |].
    intros Hne Hid. apply Hne. by apply (NoDup_fmap_eq Habit.id (habit db)). }
  split; [| split; [done | split]].
  - rewrite Hrows. clear Hrows. apply NoDup_fmap_1 in Hids.
    induction (habit db) as [|a l IH]; [by apply elem_of_nil in Hh |].
    apply NoDup_cons in Hids as [Ha Hl].
    apply elem_of_cons in Hh as [->|Hh].
    + rewrite filter_cons_False by (intros Hne; by apply Hne).
      rewrite filter_all; [done |]. intros x Hx ->. done.
    + rewrite filter_cons_True by (intros ->; done). simpl. f_equal. by apply IH.
  - intros hid Hne. unfold get_habit. simpl.
    apply find_in_filter. intros h' ->. done.
  - intros hid day Hne. unfold checked_on. simpl. rewrite !list_elem_of_fmap.
    split; intros (c & Hkey & Hc); exists c; (split; [done |]).
    + by apply list_elem_of_filter in Hc as [_ Hc].
    + apply list_elem_of_filter. split; [| done]. injection Hkey as -> _. done.
Qed.

Lemma delete_habit_frame_witness :
  let db' := db_after (delete_habit 1 (form_request []) db_example) in
  S (length (habit db')) = length (habit db_example) ∧
  habit db' = filter (λ h', h' ≠ habit_read) (habit db_example) ∧
  (∀ hid, hid ≠ 1%Z → get_habit db' hid = get_habit db_example hid) ∧
  (∀ hid day, hid ≠ 1%Z → checked_on db' hid day ↔ checked_on db_example hid day).
Proof.
  apply (delete_habit_frame (form_request []) db_example habit_read).
  - repeat split; compute_done.
  - apply list_elem_of_here.
Defined.

(** X14.  When every checking belongs to a habit of the table, creating a
    habit and deleting it again gives back the database as it was.  (A
    checking left under an id that no habit has would be taken over by a new
    habit with that id, and deleted with it.) *)
Theorem create_then_delete (now : Z) (r r' : request) (db : DB) :
  owned db →
  form_name r ≠ "" →
  form_name r ∉ Habit.name <$> habit db →
  let created := create_habit now r db in
  let new_id := next_id (Habit.id <$> habit db) in
  get_habit (db_after created) new_id
  = Some (Habit.mk new_id (form_name r) (form_color r) "daily" 1 now) ∧
  db_after (delete_habit new_id r' (db_after created)) = db.
Proof.
  intros Howned Hname Hfresh created new_id.
  set (h := Habit.mk new_id (form_name r) (form_color r) "daily" 1 now).
  assert (db_after created = mkDB (habit db ++ [h]) (checking db)) as Hdb.
  { unfold created, create_habit. rewrite decide_False by done.
    unfold insert_habit. by rewrite decide_False. }
  assert (get_habit (db_after created) new_id = Some h) as Hget.
  { rewrite Hdb. apply (get_habit_app_new db h). apply next_id_fresh. }
  split; [done |]. unfold delete_habit. rewrite (get_or_404_Some _ _ _ Hget), Hdb. simpl.
  unfold delete_habit_row. simpl. rewrite filter_app, filter_cons_False, filter_nil, app_nil_r
    by (simpl; tauto).
  rewrite !filter_all; [by destruct db | |].
  - intros c Hc Heq. apply (next_id_fresh (Habit.id <$> habit db)).
    fold new_id. rewrite <- Heq. by apply Howned.
  - intros h' Hh' Heq. apply (next_id_fresh (Habit.id <$> habit db)).
    fold new_id. rewrite <- Heq. by apply list_elem_of_fmap_2.
Qed.

Lemma create_then_delete_witness :
  get_habit (db_after (create_habit 9 (form_request [("name", "Walk")]) db_example)) 3
  = Some (Habit.mk 3 "Walk" "#3b82f6" "daily" 1 9) ∧
  db_after (delete_habit 3 (form_request [])
              (db_after (create_habit 9 (form_request [("name", "Walk")]) db_example)))
  = db_example.
Proof.
  apply (create_then_delete 9 (form_request [("name", "Walk")]) (form_request [])
           db_example).
  - intros c Hc. repeat (apply elem_of_cons in Hc as [->|Hc]; [compute_done |]).
    by apply elem_of_nil in Hc.
  - discriminate.
  - compute_done.
Defined.

(** An orphan checking under the next id is taken over and deleted. *)
Example create_then_delete_orphan :
  db_after (delete_habit 1 (form_request [])
              (db_after (create_habit 9 (form_request [("name", "Walk")])
                           (mkDB [] [Checking.mk 1 1 738886]))))
  = mkDB [] [].
Proof. reflexivity. Qed.

(** ** Toggle requests *)

Section MoreToggle.
Context `{Builtins}.

Lemma toggle_payload_missing (r : request) :
  data_get (request_data r) "habit_id" = None ∨
  data_get (request_data r) "habit_id" = Some JNull ∨
  data_get (request_data r) "date" = Some JNull →
  toggle_payload r = None.
Proof.
  unfold toggle_payload. intros [Hm|[Hm|Hm]]; rewrite Hm; simpl; try done.
  destruct (data_get (request_data r) "habit_id") as [v|]; simpl; [| done].
  by destruct (py_int v).
Qed.

Lemma toggle_unreadable (today : date) (r : request) (db : DB) :
  toggle_payload r = None → toggle today r db = invalid_payload db.
Proof. intros Hp. unfold toggle. by rewrite Hp. Qed.

(** X15.  A toggle request that lacks [habit_id] or [date], in a form or in a
    JSON object, or whose JSON body is no object, or that has no form or JSON
    body at all, is answered 400 [invalid_payload] and changes nothing. *)
Theorem toggle_rejects_malformed (today : date) (xrw : option string) (db : DB) :
  (∀ fields,
     dict_get fields "habit_id" = None ∨ dict_get fields "date" = None →
     toggle today (mkRequest (FormBody fields) xrw) db = invalid_payload db) ∧
  (∀ kv,
     dict_get kv "habit_id" = None ∨ dict_get kv "date" = None →
     toggle today (mkRequest (JsonBody (Some (JDict kv))) xrw) db = invalid_payload db) ∧
  (∀ j, (∀ kv, j ≠ JDict kv) →
     toggle today (mkRequest (JsonBody (Some j)) xrw) db = invalid_payload db) ∧
  toggle today (mkRequest (JsonBody None) xrw) db = invalid_payload db ∧
  toggle today (mkRequest OtherBody xrw) db = invalid_payload db.
Proof.
  split; [| split; [| split; [| split]]].
  - intros fields Hmiss. apply toggle_unreadable, toggle_payload_missing.
    unfold request_data, get_json, form. simpl. right.
    destruct Hmiss as [-> | ->]; [by left | by right].
  - intros kv Hmiss. apply toggle_unreadable, toggle_payload_missing.
    unfold request_data, get_json, form. cbn [req_body]. right.
    destruct (truthy (JDict kv)); cbn [data_get dict_get]; [| by left].
    destruct Hmiss as [-> | ->]; [by left | by right].
  - intros j Hj. apply toggle_unreadable, toggle_payload_missing.
    unfold request_data, get_json, form. simpl.
    destruct j as [|b|n|s|l|kv]; simpl.
    + right. by left.
    + destruct b; [by left | right; by left].
    + destruct (negb (n =? 0)%Z); [by left | right; by left].
    + destruct (negb (bool_decide (s = ""))); [by left | right; by left].
    + destruct (negb (bool_decide (l = []))); [by left | right; by left].
    + by destruct (Hj kv).
  - by apply toggle_unreadable, toggle_payload_missing; right; left.
  - by apply toggle_unreadable, toggle_payload_missing; right; left.
Qed.

Lemma toggle_as_commit (today : date) (r : request) (db : DB) (hid : Z) (d : date) :
  toggle_payload r = Some (hid, d) →
  int64 hid →
  ∃ db' status,
    toggle_commit hid d db = Ok (db', status) ∧
    toggle today r db
    = mkOutcome db' []
        (respond (toggle_reply status <$>
                    get_streak_from_dates (habit_dates db' hid) today)).
Proof.
  intros Hp Hrange. destruct (toggle_commit_Ok db hid d) as (db' & status & Hc).
  exists db', status. split; [done |].
  by rewrite (toggle_in_range today r db hid d), Hc.
Qed.

(** A reply with [checked] and [streak] comes from an id that SQLite can
    hold. *)
Lemma toggle_reply_in_range (today : date) (r : request) (db : DB) (hid : Z) (d : date)
    (status : bool) (streak : nat) :
  toggle_payload r = Some (hid, d) →
  reply (toggle today r db) = toggle_reply status streak →
  int64 hid.
Proof.
  intros Hp Hreply. destruct (decide (int64 hid)) as [|Hout]; [done |].
  by rewrite (toggle_out_of_range today r db hid d) in Hreply.
Qed.

Lemma length_filter_lt {A} (P : A → Prop) `{!∀ x, Decision (P x)} (l : list A) (x : A) :
  x ∈ l → ¬ P x → length (filter P l) < length l.
Proof.
  intros Hx HP. induction l as [|a l IH]; [by apply elem_of_nil in Hx |].
  pose proof (length_filter P l) as Hle.
  apply elem_of_cons in Hx as [<-|Hx].
  - rewrite filter_cons_False by done. simpl. lia.
  - specialize (IH Hx). destruct (decide (P a)).
    + rewrite filter_cons_True by done. simpl. lia.
    + rewrite filter_cons_False by done. simpl. lia.
Qed.

(** The commit of lines 185-194 changes the number of checkings. *)
Lemma toggle_commit_length (db db' : DB) (hid : Z) (d : date) (status : bool) :
  toggle_commit hid d db = Ok (db', status) →
  status = negb (bool_decide (checked_on db hid d)) ∧
  length (checking db') ≠ length (checking db).
Proof.
  intros Hcommit. destruct (decide (checked_on db hid d)) as [Hon|Hoff].
  - destruct (toggle_commit_checked db hid d Hon) as (c & Hin & _ & Heq).
    rewrite Heq in Hcommit. injection Hcommit as <- <-.
    rewrite bool_decide_true by done. split; [done |]. simpl.
    pose proof (length_filter_lt (λ c', Checking.id c' ≠ Checking.id c)
                  (checking db) c Hin) as Hlt.
    assert (¬ (Checking.id c ≠ Checking.id c)) as Hsame by tauto.
    specialize (Hlt Hsame). lia.
  - rewrite (toggle_commit_unchecked db hid d Hoff) in Hcommit.
    injection Hcommit as <- <-. rewrite bool_decide_false by done.
    split; [done |]. simpl. rewrite length_app. simpl. lia.
Qed.

(** X16.  Whatever the request, [toggle] leaves the habit table alone and
    flashes nothing, and it ends in one of three ways.  A payload it cannot
    read is answered 400 [invalid_payload], nothing written.  A habit_id that
    SQLite cannot hold ends in the 500 of the [OverflowError] of line 185,
    nothing written.  Otherwise the number of checkings changes, and the
    reply is the JSON body, [checked] the negation of what the table held
    and [streak] the streak of the table the request leaves, unless the walk
    of that streak raises [OverflowError], which ends in a 500 as well.
    Never not-found, and never an [IntegrityError]. *)
Theorem toggle_answers (today : date) (r : request) (db : DB) :
  let out := toggle today r db in
  habit (db_after out) = habit db ∧
  flashed out = [] ∧
  ((toggle_payload r = None ∧
    out = mkOutcome db []
            (Jsonify 400 (JDict [("ok", JBool false);
                                 ("error", JStr "invalid_payload")]))) ∨
   (∃ hid d, toggle_payload r = Some (hid, d) ∧ ¬ int64 hid ∧
             out = mkOutcome db [] (InternalServerError OverflowError)) ∨
   (∃ hid d, toggle_payload r = Some (hid, d) ∧ int64 hid ∧
             length (checking (db_after out)) ≠ length (checking db) ∧
             ((∃ streak,
                 get_streak_from_dates (habit_dates (db_after out) hid) today
                 = Ok streak ∧
                 reply out
                 = Jsonify 200
                     (JDict [("ok", JBool true);
                             ("checked",
                              JBool (negb (bool_decide (checked_on db hid d))));
                             ("streak", JInt (Z.of_nat streak))])) ∨
              (get_streak_from_dates (habit_dates (db_after out) hid) today
               = Raise OverflowError ∧
               reply out = InternalServerError OverflowError)))).
Proof.
  intros out. split; [apply toggle_keeps_habits |]. subst out.
  destruct (toggle_payload r) as [[hid d]|] eqn:Hp.
  - destruct (decide (int64 hid)) as [Hrange|Hrange].
    + destruct (toggle_as_commit today r db hid d Hp Hrange)
        as (db' & status & Hcommit & ->).
      destruct (toggle_commit_length _ _ _ _ _ Hcommit) as [-> Hlen].
      split; [done |]. right. right. exists hid, d.
      split; [done |]. split; [done |]. split; [done |]. simpl.
      pose proof (streak_bound today (habit_dates db' hid)) as Hb.
      destruct (get_streak_from_dates (habit_dates db' hid) today) as [n|e]; simpl.
      * left. by exists n.
      * right. by destruct Hb as [-> _].
    + rewrite (toggle_out_of_range today r db hid d) by done.
      split; [done |]. right. left. by exists hid, d.
  - rewrite (toggle_unreadable today r db Hp). split; [done |]. by left.
Qed.

Lemma toggle_flips_one_pair_aux (today : date) (r : request) (db : DB) (hid : Z) (d : date) :
  constraints db →
  toggle_payload r = Some (hid, d) →
  int64 hid →
  (checked_on (db_after (toggle today r db)) hid d ↔ ¬ checked_on db hid d) ∧
  snd <$> toggle_commit hid d db
  = Ok (negb (bool_decide (checked_on db hid d))).
Proof.
  intros (_ & _ & Hids & Hkeys) Hp Hrange.
  rewrite (toggle_in_range today r db hid d) by done.
  destruct (decide (checked_on db hid d)) as [Hon|Hoff].
  - destruct (toggle_commit_checked db hid d Hon) as (c & Hin & Hkey & ->).
    rewrite bool_decide_true by done. split; [| done].
    simpl db_after. split; [| done]. intros Hstill. exfalso. revert Hstill.
    unfold checked_on. rewrite (delete_checking_by_key db c Hids Hkeys Hin), Hkey.
    rewrite list_elem_of_fmap. intros (c' & Hk & Hc').
    by apply list_elem_of_filter in Hc' as [Hne _].
  - rewrite (toggle_commit_unchecked db hid d Hoff).
    rewrite bool_decide_false by done. split; [| done].
    simpl db_after. split; [done |]. intros _. unfold checked_on. simpl.
    rewrite fmap_app. apply elem_of_app. right. by apply list_elem_of_singleton.
Qed.

Lemma length_without_key (rows : list Checking.t) (k : Z * date) :
  NoDup (checking_key <$> rows) →
  k ∈ checking_key <$> rows →
  S (length (filter (λ c, checking_key c ≠ k) rows)) = length rows.
Proof.
  intros Hnd Hk. pose proof (keys_without_key rows k Hnd Hk) as Hperm.
  apply Permutation_length in Hperm.
  rewrite length_app, !length_fmap in Hperm. simpl in Hperm. lia.
Qed.

(** X17.  In a database that satisfies the constraints, a toggle with a
    readable payload and a habit_id that SQLite can hold changes the
    checkings by exactly one row: the pair (habit_id, date) of the payload is
    checked afterwards if and only if it was not before, and every other pair
    is as it was. *)
Theorem toggle_flips_one_pair (today : date) (r : request) (db : DB) (hid : Z) (d : date) :
  constraints db →
  toggle_payload r = Some (hid, d) →
  int64 hid →
  let db' := db_after (toggle today r db) in
  (checked_on db' hid d ↔ ¬ checked_on db hid d) ∧
  (∀ hid' day, (hid', day) ≠ (hid, d) →
               checked_on db' hid' day ↔ checked_on db hid' day) ∧
  (checked_on db hid d → S (length (checking db')) = length (checking db)) ∧
  (¬ checked_on db hid d → length (checking db') = S (length (checking db))).
Proof.
  intros Hc Hp Hrange db'. pose proof Hc as (_ & _ & Hids & Hkeys).
  split; [| split; [intros hid' day Hne; by apply (toggle_frame today r db hid hid' d day) |]].
  - by apply toggle_flips_one_pair_aux.
  - subst db'. rewrite (toggle_in_range today r db hid d) by done. split.
    + intros Hon. destruct (toggle_commit_checked db hid d Hon) as (c & Hin & Hkey & ->).
      simpl db_after. rewrite (delete_checking_by_key db c Hids Hkeys Hin), Hkey.
      by apply length_without_key.
    + intros Hoff. rewrite (toggle_commit_unchecked db hid d Hoff). simpl.
      rewrite length_app. simpl. lia.
Qed.

Lemma streak_today (D : gset date) (T : date) :
  (T ∈ D → ∀ n, get_streak_from_dates D T = Ok n → 1 ≤ n) ∧
  (T ∉ D → get_streak_from_dates D T = Ok 0).
Proof.
  unfold get_streak_from_dates. rewrite streak_loop_step. split.
  - intros Hin n. rewrite decide_True by done.
    destruct (date_sub T 1) as [T'|e]; [| discriminate].
    rewrite streak_loop_acc. destruct (streak_loop D 0 T'); [| discriminate].
    simpl. intros [= <-]. lia.
  - intros Hout. by rewrite decide_False.
Qed.

(** X18.  In a database that satisfies the constraints, a toggle of today's
    date reports a streak of at least 1 when it reports [checked: true], and
    a streak of 0 when it reports [checked: false]. *)
Theorem toggle_today_streak (today : date) (r : request) (db : DB) (hid : Z)
    (status : bool) (streak : nat) :
  constraints db →
  toggle_payload r = Some (hid, today) →
  reply (toggle today r db) = toggle_reply status streak →
  status = negb (bool_decide (checked_on db hid today)) ∧
  (if status then 1 ≤ streak else streak = 0).
Proof.
  intros Hc Hp Hreply.
  pose proof (toggle_reply_in_range today r db hid today status streak Hp Hreply) as Hrange.
  destruct (toggle_flips_one_pair_aux today r db hid today Hc Hp Hrange) as [Hflip Hstatus].
  destruct (toggle_as_commit today r db hid today Hp Hrange) as (db' & st & Hcommit & Hout).
  rewrite Hout in Hreply, Hflip. simpl in Hreply, Hflip.
  rewrite Hcommit in Hstatus. injection Hstatus as Hst.
  destruct (streak_today (habit_dates db' hid) today) as [Hin Hnot].
  destruct (get_streak_from_dates (habit_dates db' hid) today) as [n|e] eqn:Hs;
    [| discriminate].
  simpl in Hreply. injection Hreply as -> Hn. apply Nat2Z.inj in Hn as ->.
  split; [done |]. subst status.
  destruct (decide (checked_on db hid today)) as [Hon|Hoff].
  - rewrite bool_decide_true by done. simpl.
    assert (today ∉ habit_dates db' hid) as Hout'.
    { rewrite habit_dates_spec. tauto. }
    specialize (Hnot Hout'). congruence.
  - rewrite bool_decide_false by done. simpl.
    apply Hin; [| done]. rewrite habit_dates_spec. tauto.
Qed.

End MoreToggle.

(** ** The dashboard *)

Lemma habit_dates_dict_lookup (db : DB) (habits : list Habit.t) (hid : Z) :
  hid ∈ Habit.id <$> habits →
  default ∅ (habit_dates_dict db habits !! hid) = habit_dates db hid.
Proof.
  unfold habit_dates_dict. generalize (∅ : gmap Z (gset date)).
  induction habits as [|h habits IH] using rev_ind; intros m Hin.
  { by apply elem_of_nil in Hin. }
  rewrite foldl_app. simpl.
  destruct (decide (Habit.id h = hid)) as [<-|Hne].
  - by rewrite lookup_insert_eq.
  - rewrite lookup_insert_ne by done. apply IH.
    rewrite fmap_app in Hin. apply elem_of_app in Hin as [Hin|Hin]; [done |].
    by apply list_elem_of_singleton in Hin.
Qed.

Lemma streaks_dict_Ok (today : date) (dates : gmap Z (gset date))
    (habits : list Habit.t) (m : gmap Z nat) :
  streaks_dict today dates habits = Ok m →
  ∀ hid n,
    m !! hid = Some n ↔
      hid ∈ Habit.id <$> habits ∧
      get_streak_from_dates (default ∅ (dates !! hid)) today = Ok n.
Proof.
  unfold streaks_dict. revert m.
  induction habits as [|h habits IH] using rev_ind; intros m.
  { simpl. intros [= <-] hid n. rewrite lookup_empty. split; [done |].
    intros [Hin _]. by apply elem_of_nil in Hin. }
  rewrite foldl_app. simpl.
  destruct (foldl _ (Ok ∅) habits) as [m0|e] eqn:Hfold; [| discriminate].
  simpl. destruct (get_streak_from_dates _ today) as [s|e] eqn:Hs; [| discriminate].
  simpl. intros [= <-] hid n. specialize (IH m0 eq_refl hid n).
  rewrite fmap_app, elem_of_app. simpl. rewrite list_elem_of_singleton.
  destruct (decide (Habit.id h = hid)) as [<-|Hne].
  - rewrite lookup_insert_eq. split.
    + intros [= <-]. split; [by right | done].
    + intros [_ Hn]. congruence.
  - rewrite lookup_insert_ne by done. rewrite IH. split.
    + intros [Hin Hn]. split; [by left | done].
    + intros [[Hin|Heq] Hn]; [done | congruence].
Qed.

Lemma streaks_dict_returns (today : date) (dates : gmap Z (gset date))
    (habits : list Habit.t) :
  (∀ h, h ∈ habits →
        ∃ n, get_streak_from_dates (default ∅ (dates !! Habit.id h)) today = Ok n) →
  ∃ m, streaks_dict today dates habits = Ok m.
Proof.
  unfold streaks_dict. induction habits as [|h habits IH] using rev_ind; intros Hall.
  { by eexists. }
  rewrite foldl_app. simpl.
  destruct IH as [m0 ->].
  { intros h' Hh'. apply Hall, elem_of_app. by left. }
  destruct (Hall h) as [n ->]; [apply elem_of_app; right; by apply list_elem_of_singleton |].
  by eexists.
Qed.

Lemma check_map_spec (db : DB) (habits : list Habit.t) (first : date) (hid : Z) (d : date) :
  (hid, d) ∈ (list_to_set
                (habits ≫= λ h,
                   checking_key <$>
                     filter (λ c, (first ≤ Checking.date c)%positive)
                            (habit_checking db h)) : gset (Z * date))
  ↔ hid ∈ Habit.id <$> habits ∧ checked_on db hid d ∧ (first ≤ d)%positive.
Proof.
  rewrite elem_of_list_to_set, list_elem_of_bind. unfold checked_on, habit_checking.
  rewrite !list_elem_of_fmap. split.
  - intros (h & Hk & Hh). apply list_elem_of_fmap in Hk as (c & Hkey & Hc).
    apply list_elem_of_filter in Hc as [Hfirst Hc].
    apply list_elem_of_filter in Hc as [Hid Hc].
    injection Hkey as -> ->. split; [exists h; by split |]. split; [| done].
    by exists c.
  - intros ((h & -> & Hh) & (c & Hkey & Hc) & Hfirst). injection Hkey as Hid ->.
    exists h. split; [| done]. apply list_elem_of_fmap. exists c.
    split; [unfold checking_key; by rewrite <- Hid |].
    apply list_elem_of_filter. split; [done |]. by apply list_elem_of_filter.
Qed.

Lemma index_route_Ok (today : date) (db : DB) (habits : list Habit.t) (dash : dashboard) :
  index_route today db habits = Ok dash →
  (7 ≤ Z.pos today)%Z ∧
  ∃ m, streaks_dict today (habit_dates_dict db habits) habits = Ok m ∧
       dash = mkDashboard habits (window_list today 7)
                (list_to_set
                   (habits ≫= λ h,
                      checking_key <$>
                        filter (λ c, (days_ago today 6 ≤ Checking.date c)%positive)
                               (habit_checking db h)))
                today m.
Proof.
  unfold index_route. intros Hok.
  destruct (decide (7 ≤ Z.pos today)%Z) as [Hle|Hlt].
  2:{ rewrite window_overflow in Hok by lia. discriminate. }
  split; [done |].
  destruct (window_list_facts today 7) as (Hw & H0 & _); [lia |].
  remember (window_list today 7) as days eqn:Hdays.
  rewrite Hw in Hok. simpl in Hok. rewrite H0 in Hok. simpl in Hok.
  destruct (streaks_dict today (habit_dates_dict db habits) habits) as [m|e];
    [| discriminate].
  simpl in Hok. injection Hok as <-. by exists m.
Qed.

Lemma index_route_streak (today : date) (db : DB) (habits : list Habit.t)
    (dash : dashboard) (hid : Z) (n : nat) :
  habits ≡ₚ habit db →
  index_route today db habits = Ok dash →
  streaks dash !! hid = Some n ↔
    hid ∈ Habit.id <$> habit db ∧
    get_streak_from_dates (habit_dates db hid) today = Ok n.
Proof.
  intros Hperm (_ & m & Hm & ->)%index_route_Ok. simpl.
  rewrite (streaks_dict_Ok _ _ _ _ Hm), <- Hperm. split.
  - intros [Hin Hs]. split; [done |]. by rewrite habit_dates_dict_lookup in Hs.
  - intros [Hin Hs]. split; [done |]. by rewrite habit_dates_dict_lookup.
Qed.

(** X19.  When [index] renders, for today at least six days after [date.min],
    its context is this: the seven days ending today; in [Check_map] exactly
    the pairs (habit, date) of the habits of the table that have a checking
    on a date from six days ago on (later than today included), so no
    checking of an id without a habit; in [streaks] one entry per habit of
    the table, its current streak. *)
Theorem index_route_context (today : date) (db : DB) (habits : list Habit.t)
    (dash : dashboard) :
  habits ≡ₚ habit db →
  index_route today db habits = Ok dash →
  (7 ≤ Z.pos today)%Z ∧
  dash_habits dash = habits ∧ dash_today dash = today ∧
  dash_days dash = window_list today 7 ∧
  (∀ hid d, (hid, d) ∈ Check_map dash ↔
            hid ∈ Habit.id <$> habit db ∧ checked_on db hid d ∧
            (days_ago today 6 ≤ d)%positive) ∧
  (∀ hid n, streaks dash !! hid = Some n ↔
            hid ∈ Habit.id <$> habit db ∧
            get_streak_from_dates (habit_dates db hid) today = Ok n).
Proof.
  intros Hperm Hok. pose proof (index_route_Ok _ _ _ _ Hok) as (Hle & m & Hm & Hdash).
  split; [done |]. split; [by rewrite Hdash |]. split; [by rewrite Hdash |].
  split; [by rewrite Hdash |]. split.
  - intros hid d. rewrite Hdash. simpl. by rewrite check_map_spec, Hperm.
  - intros hid n. by apply (index_route_streak today db habits dash).
Qed.

(** X20.  [index] renders when today is at least six days after [date.min]
    and every habit of the table has a day up to today without a checking;
    less than six days after [date.min] it raises [OverflowError]. *)
Theorem index_route_renders (today : date) (db : DB) (habits : list Habit.t) :
  habits ≡ₚ habit db →
  ((7 ≤ Z.pos today)%Z →
   (∀ h, h ∈ habit db →
         ∃ gap, (gap ≤ today)%positive ∧ ¬ checked_on db (Habit.id h) gap) →
   ∃ dash, index_route today db habits = Ok dash) ∧
  ((Z.pos today < 7)%Z → index_route today db habits = Raise OverflowError).
Proof.
  intros Hperm. split.
  - intros Hle Hgaps. unfold index_route.
    destruct (window_list_facts today 7) as (Hw & H0 & _); [lia |].
    remember (window_list today 7) as days eqn:Hdays.
    rewrite Hw. simpl. rewrite H0. simpl.
    destruct (streaks_dict_returns today (habit_dates_dict db habits) habits) as [m ->].
    { intros h Hh. rewrite habit_dates_dict_lookup by by apply list_elem_of_fmap_2.
      rewrite Hperm in Hh. destruct (Hgaps h Hh) as (gap & Hgap & Hoff).
      apply (streak_returns _ today gap Hgap). by rewrite habit_dates_spec. }
    by eexists.
  - intros Hlt. unfold index_route. by rewrite window_overflow.
Qed.

(** X21.  The streak a toggle reports for a habit of the table is the streak
    the dashboard shows for it when it is rendered next, on the same day. *)
Theorem toggle_streak_on_dashboard `{Builtins} (today : date) (r : request) (db : DB)
    (hid : Z) (d : date) (status : bool) (streak : nat)
    (habits : list Habit.t) (dash : dashboard) :
  toggle_payload r = Some (hid, d) →
  reply (toggle today r db) = toggle_reply status streak →
  hid ∈ Habit.id <$> habit db →
  habits ≡ₚ habit (db_after (toggle today r db)) →
  index_route today (db_after (toggle today r db)) habits = Ok dash →
  streaks dash !! hid = Some streak.
Proof.
  intros Hp Hreply Hin Hperm Hok.
  apply (index_route_streak today _ habits dash hid streak Hperm Hok).
  rewrite toggle_keeps_habits. split; [done |].
  pose proof (toggle_reply_in_range today r db hid d status streak Hp Hreply) as Hrange.
  destruct (toggle_as_commit today r db hid d Hp Hrange) as (db' & st & _ & Hout).
  rewrite Hout in Hreply |- *. simpl in Hreply |- *.
  destruct (get_streak_from_dates (habit_dates db' hid) today) as [n|e];
    [| discriminate].
  simpl in Hreply. injection Hreply as _ Hn. apply Nat2Z.inj in Hn. by subst.
Qed.

(** ** The analytics routes *)

Lemma lookup_repeated {A} (l : list A) (k i : nat) :
  i < k * length l → mjoin (replicate k l) !! i = l !! (i mod length l).
Proof.
  revert i. induction k as [|k IH]; intros i Hi; [lia |].
  simpl. destruct (decide (i < length l)) as [Hlt|Hge].
  - rewrite lookup_app_l by done. by rewrite Nat.mod_small.
  - rewrite lookup_app_r by lia. rewrite IH by lia. f_equal.
    replace i with ((i - length l) + 1 * length l) at 2 by lia.
    by rewrite Nat.Div0.mod_add.
Qed.

Lemma palette_of_spec (colors : list string) :
  colors ≠ [] →
  length (palette_of colors) = 7 ∧
  ∀ i, i < 7 → palette_of colors !! i = colors !! (i mod length colors).
Proof.
  intros Hne. assert (0 < length colors) as Hlen by (destruct colors; [done | simpl; lia]).
  unfold palette_of. split.
  - rewrite length_take.
    assert (7 ≤ length (mjoin (replicate 7 colors))); [| lia].
    simpl. rewrite !length_app. lia.
  - intros i Hi. rewrite lookup_take_lt by done. apply lookup_repeated. lia.
Qed.

(** X22.  For today at least six days after [date.min], [analytics_json]
    answers 200 with the combined weekly series and seven colors: the default
    color seven times when the table has no habit, and otherwise the colors of
    the habits in table order, repeated from the start when there are fewer
    than seven.  Earlier than that it ends in the 500 of an
    [OverflowError]. *)
Theorem analytics_json_reply (today : date) (db : DB) :
  ((7 ≤ Z.pos today)%Z →
   ∃ labels data colors,
     analytics_json today db
     = Jsonify 200 (JDict [("labels", JList (JStr <$> labels));
                           ("data", JList (JInt <$> data));
                           ("colors", JList (JStr <$> colors))]) ∧
     get_weekly_data_all_habits db today 7 = Ok (labels, data) ∧
     length labels = 7 ∧ length data = 7 ∧ length colors = 7 ∧
     (habit db = [] → colors = replicate 7 "#3b82f6") ∧
     (habit db ≠ [] →
      ∀ i, i < 7 →
           colors !! i = (Habit.color <$> habit db) !! (i mod length (habit db)))) ∧
  ((Z.pos today < 7)%Z → analytics_json today db = InternalServerError OverflowError).
Proof.
  split.
  - intros Hle. unfold analytics_json.
    destruct (window_list_facts today 7) as (_ & _ & Hlen & _); [lia |].
    rewrite all_habits_series by lia.
    remember (window_list today 7) as days eqn:Hdays. simpl.
    do 3 eexists. split; [reflexivity |]. split; [reflexivity |].
    rewrite !length_fmap, Hlen. split; [done |]. split; [done |].
    destruct (habit db) as [|h habits] eqn:Hhabits.
    + split; [done |]. split; [done |]. done.
    + destruct (palette_of_spec (Habit.color <$> h :: habits)) as [Hl Hnth]; [done |].
      split; [done |]. split; [done |]. intros _ i Hi.
      rewrite Hnth by done. by rewrite length_fmap.
  - intros Hlt. unfold analytics_json.
    by rewrite (proj2 (get_weekly_data_all_habits_raises db today 7)).
Qed.

Lemma analytics_json_reply_witness :
  ∃ labels data colors,
    analytics_json 738886 db_example
    = Jsonify 200 (JDict [("labels", JList (JStr <$> labels));
                          ("data", JList (JInt <$> data));
                          ("colors", JList (JStr <$> colors))]) ∧
    get_weekly_data_all_habits db_example 738886 7 = Ok (labels, data) ∧
    length labels = 7 ∧ length data = 7 ∧ length colors = 7 ∧
    (habit db_example = [] → colors = replicate 7 "#3b82f6") ∧
    (habit db_example ≠ [] →
     ∀ i, i < 7 →
          colors !! i
          = (Habit.color <$> habit db_example) !! (i mod length (habit db_example))).
Proof. apply (proj1 (analytics_json_reply 738886 db_example)). lia. Defined.

Example analytics_json_example :
  analytics_json 738886 db_example
  = Jsonify 200
      (JDict [("labels", JList (JStr <$> ["Tue"; "Wed"; "Thu"; "Fri"; "Sat"; "Sun"; "Mon"]));
              ("data", JList (JInt <$> [0; 0; 0; 0; 1; 0; 2]%Z));
              ("colors", JList (JStr <$> ["#3b82f6"; "#ff0000"; "#3b82f6"; "#ff0000";
                                          "#3b82f6"; "#ff0000"; "#3b82f6"]))]).
Proof. vm_compute. reflexivity. Qed.

(** Checkings of ids without a habit are counted: with no habit in the table
    the data need not be all zero. *)
Example analytics_json_orphan :
  analytics_json 738886 (mkDB [] [Checking.mk 1 99 738886])
  = Jsonify 200
      (JDict [("labels", JList (JStr <$> ["Tue"; "Wed"; "Thu"; "Fri"; "Sat"; "Sun"; "Mon"]));
              ("data", JList (JInt <$> [0; 0; 0; 0; 0; 0; 1]%Z));
              ("colors", JList (JStr <$> replicate 7 "#3b82f6"))]).
Proof. vm_compute. reflexivity. Qed.

Lemma get_habit_after_update (db : DB) (habit_id : Z) (name color : string) (h : Habit.t)
    (rows : list Checking.t) :
  get_habit db habit_id = Some h →
  get_habit
    (mkDB ((λ h', if decide (Habit.id h' = habit_id)
                  then set_name_color name color h' else h') <$> habit db) rows)
    habit_id
  = Some (set_name_color name color h).
Proof.
  unfold get_habit. simpl. intros Hget.
  rewrite list_find_fmap.
  rewrite (list_find_ext _ (λ h', Habit.id h' = habit_id)).
  2:{ intros x. simpl. by destruct (decide (Habit.id x = habit_id)). }
  apply fmap_Some in Hget as ([i h0] & Hfind & ->). rewrite Hfind. simpl.
  apply list_find_Some in Hfind as (_ & Hid & _). by rewrite decide_True.
Qed.

(** X23.  After an edit that succeeded, [habit_analytics_json] reports the
    habit under the name and the color of the request, with the weekly series
    it had before the edit. *)
Theorem edit_then_analytics (today : date) (habit_id : Z) (r : request) (db : DB)
    (payload : json) :
  reply (edit_habit habit_id r db) = Jsonify 200 payload →
  (7 ≤ Z.pos today)%Z →
  ∃ labels data,
    get_weekly_data_for_habit db today habit_id 7 = Ok (labels, data) ∧
    habit_analytics_json today habit_id (db_after (edit_habit habit_id r db))
    = Jsonify 200 (JDict [("labels", JList (JStr <$> labels));
                          ("data", JList (JInt <$> data));
                          ("color", JStr (form_color r));
                          ("name", JStr (form_name r))]).
Proof.
  intros Hok Hle. unfold edit_habit, get_or_404 in *.
  destruct (get_habit db habit_id) as [h|] eqn:Hget;
    [| case_decide; discriminate].
  pose proof (get_habit_Some _ _ _ Hget) as [_ Hid]. rewrite Hid in *.
  destruct (decide (form_name r = "")); [discriminate |].
  unfold update_habit in *. case_decide; [discriminate |]. simpl db_after.
  unfold habit_analytics_json.
  rewrite (get_or_404_Some _ _ _ (get_habit_after_update db habit_id _ _ h _ Hget)).
  assert (∀ rows', get_weekly_data_for_habit (mkDB rows' (checking db)) today habit_id 7
                   = get_weekly_data_for_habit db today habit_id 7) as -> by done.
  rewrite for_habit_series by lia.
  remember (window_list today 7) as days. simpl. by do 2 eexists.
Qed.

Lemma edit_then_analytics_witness :
  ∃ labels data,
    get_weekly_data_for_habit db_example 738886 2 7 = Ok (labels, data) ∧
    habit_analytics_json 738886 2
      (db_after (edit_habit 2 (form_request [("name", "Jog"); ("color", "#0000ff")])
                            db_example))
    = Jsonify 200 (JDict [("labels", JList (JStr <$> labels));
                          ("data", JList (JInt <$> data));
                          ("color", JStr "#0000ff");
                          ("name", JStr "Jog")]).
Proof.
  apply (edit_then_analytics 738886 2
           (form_request [("name", "Jog"); ("color", "#0000ff")]) db_example
           (json_habit (Habit.mk 2 "Jog" "#0000ff" "daily" 1 5))).
  - reflexivity.
  - lia.
Defined.

(** ** Instances on the example data *)

Lemma toggle_flips_one_pair_witness :
  let db' := db_after (toggle (H:=reference) 738886 (toggle_json 1 "2024-01-01")
                              db_example) in
  (checked_on db' 1 738886 ↔ ¬ checked_on db_example 1 738886) ∧
  (∀ hid' day, (hid', day) ≠ (1%Z, 738886%positive) →
               checked_on db' hid' day ↔ checked_on db_example hid' day) ∧
  (checked_on db_example 1 738886 →
   S (length (checking db')) = length (checking db_example)) ∧
  (¬ checked_on db_example 1 738886 →
   length (checking db') = S (length (checking db_example))).
Proof.
  apply (toggle_flips_one_pair (H:=reference) 738886 (toggle_json 1 "2024-01-01")
           db_example 1 738886).
  - repeat split; compute_done.
  - vm_compute. reflexivity.
  - unfold int64, int64_min, int64_max. lia.
Defined.

Lemma toggle_today_streak_witness :
  true = negb (bool_decide (checked_on db_example 2 738887)) ∧ 1 ≤ 2.
Proof.
  apply (toggle_today_streak (H:=reference) 738887 (toggle_json 2 "2024-01-02")
           db_example 2 true 2).
  - repeat split; compute_done.
  - vm_compute. reflexivity.
  - vm_compute. reflexivity.
Defined.

Lemma index_route_context_witness :
  ∃ dash,
    index_route 738886 db_example [habit_run; habit_read] = Ok dash ∧
    dash_days dash = window_list 738886 7 ∧
    (∀ hid d, (hid, d) ∈ Check_map dash ↔
              hid ∈ Habit.id <$> habit db_example ∧ checked_on db_example hid d ∧
              (days_ago 738886 6 ≤ d)%positive) ∧
    (∀ hid n, streaks dash !! hid = Some n ↔
              hid ∈ Habit.id <$> habit db_example ∧
              get_streak_from_dates (habit_dates db_example hid) 738886 = Ok n).
Proof.
  assert ([habit_run; habit_read] ≡ₚ habit db_example) as Hperm by apply Permutation_swap.
  destruct (index_route 738886 db_example [habit_run; habit_read]) as [dash|e] eqn:Hok.
  - exists dash. split; [done |].
    destruct (index_route_context 738886 db_example [habit_run; habit_read] dash Hperm Hok)
      as (_ & _ & _ & Hdays & Hmap & Hstreaks).
    done.
  - exfalso. vm_compute in Hok. discriminate Hok.
Defined.

Example index_route_example :
  streaks <$> index_route 738886 db_example [habit_run; habit_read]
  = Ok ({[1%Z := 1; 2%Z := 1]} : gmap Z nat).
Proof. vm_compute. reflexivity. Qed.

Lemma index_route_renders_witness :
  ∃ dash, index_route 738886 db_example [habit_run; habit_read] = Ok dash.
Proof.
  apply (proj1 (index_route_renders 738886 db_example [habit_run; habit_read]
                  (Permutation_swap habit_read habit_run []))).
  - lia.
  - intros h Hh. exists 1%positive. split; [lia |].
    repeat (apply elem_of_cons in Hh as [->|Hh]; [compute_done |]).
    by apply elem_of_nil in Hh.
Defined.

Lemma toggle_streak_on_dashboard_witness :
  ∃ dash,
    index_route 738886
      (db_after (toggle (H:=reference) 738886 (toggle_json 2 "2023-12-31") db_example))
      [habit_run; habit_read] = Ok dash ∧
    streaks dash !! 2%Z = Some 2.
Proof.
  destruct (index_route 738886
              (db_after (toggle (H:=reference) 738886 (toggle_json 2 "2023-12-31")
                                db_example))
              [habit_run; habit_read]) as [dash|e] eqn:Hok.
  - exists dash. split; [done |].
    apply (toggle_streak_on_dashboard (H:=reference) 738886
             (toggle_json 2 "2023-12-31") db_example 2 738885 true 2
             [habit_run; habit_read] dash).
    + vm_compute. reflexivity.
    + vm_compute. reflexivity.
    + compute_done.
    + apply Permutation_swap.
    + exact Hok.
  - exfalso. vm_compute in Hok. discriminate Hok.
Defined.

(** ** A toggle seen in the combined weekly series *)

Lemma rows_on_day_after_insert (rows : list Checking.t) (c : Checking.t) (day : date) :
  length (filter (λ c', Checking.date c' = day) (rows ++ [c]))
  = length (filter (λ c', Checking.date c' = day) rows)
    + (if decide (Checking.date c = day) then 1 else 0).
Proof.
  rewrite filter_app, length_app. f_equal.
  destruct (decide (Checking.date c = day)).
  - by rewrite filter_cons_True.
  - by rewrite filter_cons_False.
Qed.

Lemma rows_on_day_after_delete (rows : list Checking.t) (hid : Z) (d day : date) :
  NoDup (checking_key <$> rows) →
  (hid, d) ∈ checking_key <$> rows →
  length (filter (λ c, Checking.date c = day)
                 (filter (λ c, checking_key c ≠ (hid, d)) rows))
  + (if decide (d = day) then 1 else 0)
  = length (filter (λ c, Checking.date c = day) rows).
Proof.
  intros Hnd Hin. rewrite list_filter_filter.
  destruct (decide (d = day)) as [<-|Hne].
  - rewrite <- (length_without_key (filter (λ c, Checking.date c = d) rows) (hid, d)).
    + rewrite list_filter_filter.
      rewrite (list_filter_iff _ (λ c, checking_key c ≠ (hid, d) ∧ Checking.date c = d));
        [lia | tauto].
    + by apply NoDup_fmap_filter.
    + apply list_elem_of_fmap in Hin as (c & Hkey & Hc). apply list_elem_of_fmap.
      exists c. split; [done |]. apply list_elem_of_filter. split; [| done].
      by injection Hkey as _ ->.
  - rewrite Nat.add_0_r. f_equal. apply list_filter_iff. intros c. split; [tauto |].
    intros Hday. split; [done |]. intros Hkey. apply Hne.
    injection Hkey as _ <-. done.
Qed.

Section ToggleSeries.
Context `{Builtins}.

(** X25.  In a database that satisfies the constraints, a toggle of
    (habit_id, date), with a habit_id that SQLite can hold, moves the
    combined weekly series by one on the day of the toggled date, up when the
    checking was inserted and down when it was deleted, and leaves the value
    of every other day as it was. *)
Theorem toggle_moves_one_count (today : date) (r : request) (db : DB)
    (hid : Z) (d : date) (N : Z) :
  constraints db →
  toggle_payload r = Some (hid, d) →
  int64 hid →
  (1 ≤ N ≤ Z.pos today)%Z →
  ∃ labels data data',
    get_weekly_data_all_habits db today N = Ok (labels, data) ∧
    get_weekly_data_all_habits (db_after (toggle today r db)) today N = Ok (labels, data') ∧
    ∀ i day v, window_list today N !! i = Some day → data !! i = Some v →
      data' !! i
      = Some (if decide (d = day)
              then (if decide (checked_on db hid d) then v - 1 else v + 1)
              else v)%Z.
Proof.
  intros (_ & _ & Hids & Hkeys) Hp Hrange HN.
  rewrite !all_habits_series by done. do 3 eexists.
  split; [done |]. split; [done |].
  intros i day v Hday. rewrite !list_lookup_fmap, Hday. simpl. intros [= <-]. f_equal.
  rewrite (toggle_in_range today r db hid d) by done.
  destruct (decide (checked_on db hid d)) as [Hon|Hoff].
  - destruct (toggle_commit_checked db hid d Hon) as (c & Hin & Hkey & ->).
    simpl db_after. rewrite (delete_checking_by_key db c Hids Hkeys Hin), Hkey.
    pose proof (rows_on_day_after_delete (checking db) hid d day Hkeys Hon) as Hcount.
    destruct (decide (d = day)); lia.
  - rewrite (toggle_commit_unchecked db hid d Hoff). simpl db_after. simpl checking.
    rewrite rows_on_day_after_insert. simpl.
    destruct (decide (d = day)); lia.
Qed.

End ToggleSeries.

Lemma toggle_moves_one_count_witness :
  ∃ labels data data',
    get_weekly_data_all_habits db_example 738886 7 = Ok (labels, data) ∧
    get_weekly_data_all_habits
      (db_after (toggle (H:=reference) 738886 (toggle_json 2 "2023-12-31") db_example))
      738886 7 = Ok (labels, data') ∧
    ∀ i day v, window_list 738886 7 !! i = Some day → data !! i = Some v →
      data' !! i
      = Some (if decide (738885%positive = day)
              then (if decide (checked_on db_example 2 738885) then v - 1 else v + 1)
              else v)%Z.
Proof.
  apply (toggle_moves_one_count (H:=reference) 738886 (toggle_json 2 "2023-12-31")
           db_example 2 738885 7).
  - repeat split; compute_done.
  - vm_compute. reflexivity.
  - unfold int64, int64_min, int64_max. lia.
  - lia.
Defined.
